(** * Verification of the image acquisition pipeline of [main.py]

    A shallow embedding of [src/main.py] (fingerprint, SVG size
    classifier, the three format handlers, the content-type dispatcher
    and the acquisition driver), followed by the properties of the
    natural-language specification that concern them.

    Conventions of the embedding.
    - A Python [str] is a [string]; a non-ASCII character is the sequence
      of its UTF-8 bytes, so that [url.encode("utf-8")] is the identity on
      the representation.  [bytes] payloads are opaque byte strings.
      The representation covers the texts that have a UTF-8 encoding
      ([PyStr.utf8]); a [str] that holds a lone surrogate has none, and
      [print] and [str.encode] raise on it.  The [str] methods and
      [float] are implemented on the ASCII range: they take no notice of
      the whitespace and the decimal digits that Unicode has beyond it.
    - A Python [float] is an IEEE-754 binary64 value, a [spec_float] with
      precision 53 and maximal exponent 1024; a Python [int] is a [Z].
    - A [dict] is a [gmap]; the file system is a [gmap] from paths to file
      contents.
    - Effects (files written, lines printed, exceptions) are threaded
      through a state-and-exception monad [M].
    - Third-party libraries (XML parser, image decoders, HTTP client,
      extraction service, URL joining) are the fields of a record [Libs]
      that every function of the embedding takes as a parameter, so the
      general theorems hold for every behaviour of the libraries.  The
      builtins the program relies on ([str] methods, [float],
      [hashlib.md5], [os.path.join]) are implemented and can be run.
    - [Scenario.libs] fixes the libraries on a few URLs and payloads; the
      closed examples and counterexamples run the program there. *)

From Stdlib Require Import ZArith List Bool Ascii String Lia.
From Stdlib Require Import Floats.SpecFloat.
From stdpp Require Import gmap strings.

Import ListNotations.
Local Open Scope string_scope.
Local Open Scope Z_scope.

(** ** Python string operations used by the source *)

Module PyStr.

(** [startswith s p]: [s.startswith(p)]. *)
Fixpoint startswith (s p : string) : bool :=
  match p, s with
  | EmptyString, _ => true
  | String a p', String b s' => if Ascii.eqb a b then startswith s' p' else false
  | String _ _, EmptyString => false
  end.

(** [contains sub s]: the Python test [sub in s]. *)
Fixpoint contains (sub s : string) : bool :=
  startswith s sub ||
  match s with
  | EmptyString => false
  | String _ s' => contains sub s'
  end.

(** [replace_from old new skip s]: the scan of [s.replace(old, new)];
    [skip] counts the characters of a match that are still to be
    dropped.  Matches are taken left to right and do not overlap. *)
Fixpoint replace_from (old new : string) (skip : nat) (s : string) : string :=
  match s with
  | EmptyString => EmptyString
  | String c s' =>
      match skip with
      | S k => replace_from old new k s'
      | O =>
          if startswith s old
          then new ++ replace_from old new (Nat.pred (String.length old)) s'
          else String c (replace_from old new O s')
      end
  end.

(** [s.replace(old, new)] for a non-empty [old]. *)
Definition replace (old new s : string) : string :=
  replace_from old new O s.

(** Whitespace as [str.strip()] sees it, on the ASCII range: TAB, LF,
    VT, FF, CR, the separators 0x1c-0x1f and the space.  The whitespace
    that Unicode has beyond the ASCII range (the no-break space U+00A0 and
    the like), which [str.strip()] removes as well, is not recognised:
    [lstrip], [rstrip] and [strip] are [str.lstrip()], [str.rstrip()] and
    [str.strip()] on ASCII text. *)
Definition is_space (c : ascii) : bool :=
  let n := nat_of_ascii c in
  ((9 <=? n) && (n <=? 13))%nat || ((28 <=? n) && (n <=? 32))%nat.

Fixpoint lstrip (s : string) : string :=
  match s with
  | EmptyString => EmptyString
  | String c s' => if is_space c then lstrip s' else s
  end.

Fixpoint rstrip (s : string) : string :=
  match s with
  | EmptyString => EmptyString
  | String c s' =>
      match rstrip s' with
      | EmptyString => if is_space c then EmptyString else String c EmptyString
      | r => String c r
      end
  end.

(** [s.strip()]. *)
Definition strip (s : string) : string := rstrip (lstrip s).

Definition lower_ascii (c : ascii) : ascii :=
  let n := nat_of_ascii c in
  if ((65 <=? n) && (n <=? 90))%nat then ascii_of_nat (n + 32) else c.

(** [s.lower()] on the ASCII range. *)
Fixpoint lower (s : string) : string :=
  match s with
  | EmptyString => EmptyString
  | String c s' => String (lower_ascii c) (lower s')
  end.

(** [s.endswith(c)] for a single character [c]. *)
Fixpoint endswith_char (s : string) (c : ascii) : bool :=
  match s with
  | EmptyString => false
  | String a EmptyString => Ascii.eqb a c
  | String _ s' => endswith_char s' c
  end.

(** The byte strings that are the UTF-8 encoding of a text (RFC 3629):
    the strings that represent a [str] which [str.encode("utf-8")] and
    [print] accept.  A lone surrogate has no such encoding.  [pending]
    holds the ranges of the continuation bytes that are still due. *)
Fixpoint utf8_from (pending : list (nat * nat)) (s : string) : bool :=
  match s with
  | EmptyString => match pending with [] => true | _ => false end
  | String c s' =>
      let n := nat_of_ascii c in
      match pending with
      | (lo, hi) :: rest => ((lo <=? n) && (n <=? hi))%nat && utf8_from rest s'
      | [] =>
          if (n <? 128)%nat then utf8_from [] s'
          else if ((194 <=? n) && (n <=? 223))%nat then utf8_from [(128, 191)%nat] s'
          else if (n =? 224)%nat then utf8_from [(160, 191)%nat; (128, 191)%nat] s'
          else if (n =? 237)%nat then utf8_from [(128, 159)%nat; (128, 191)%nat] s'
          else if ((225 <=? n) && (n <=? 239))%nat
               then utf8_from [(128, 191)%nat; (128, 191)%nat] s'
          else if (n =? 240)%nat
               then utf8_from [(144, 191)%nat; (128, 191)%nat; (128, 191)%nat] s'
          else if ((241 <=? n) && (n <=? 243))%nat
               then utf8_from [(128, 191)%nat; (128, 191)%nat; (128, 191)%nat] s'
          else if (n =? 244)%nat
               then utf8_from [(128, 143)%nat; (128, 191)%nat; (128, 191)%nat] s'
          else false
      end
  end.

Definition utf8 (s : string) : bool := utf8_from [] s.

(** A text of the ASCII range. *)
Fixpoint is_ascii (s : string) : bool :=
  match s with
  | EmptyString => true
  | String c s' => (nat_of_ascii c <? 128)%nat && is_ascii s'
  end.

(** Truth value of a string: the empty string is false. *)
Definition truthy (s : string) : bool :=
  match s with EmptyString => false | _ => true end.

(** [a or b] on strings. *)
Definition or_else (a b : string) : string := if truthy a then a else b.

End PyStr.

(** ** Python numbers: [int] and [float] *)

Module PyFloat.

(** binary64 *)
Definition prec : Z := 53.
Definition emax : Z := 1024.

Definition mul (x y : spec_float) : spec_float := SFmul prec emax x y.

(** [float(z)] for an integer [z], rounded to nearest even. *)
Definition of_int (z : Z) : spec_float := binary_normalize prec emax z 0 false.

(** [bool(x)]: every float but the two zeros is true (NaN included). *)
Definition truthy (x : spec_float) : bool :=
  match x with S754_zero _ => false | _ => true end.

(** Exact comparison of a float with an integer, as Python's mixed
    comparison does it; [None] when the float is NaN. *)
Definition compare_int (x : spec_float) (z : Z) : option comparison :=
  match x with
  | S754_nan => None
  | S754_infinity true => Some Lt
  | S754_infinity false => Some Gt
  | S754_zero _ => Some (0 ?= z)
  | S754_finite s m e =>
      let v := cond_Zopp s (Zpos m) in
      Some (if 0 <=? e then v * 2 ^ e ?= z else v ?= z * 2 ^ (- e))
  end.

(** *** [float(s)] on a string *)

Definition digit_of (c : ascii) : option Z :=
  let n := Z.of_nat (nat_of_ascii c) in
  if (48 <=? n) && (n <=? 57) then Some (n - 48) else None.

(** A run of digits in which single underscores may separate digits;
    [after] tells that the previous character was a digit.  Returns the
    digits read and the unread rest. *)
Fixpoint digitpart (after : bool) (s : string) : list Z * string :=
  match s with
  | EmptyString => ([], s)
  | String c s' =>
      match digit_of c with
      | Some d => let '(ds, r) := digitpart true s' in (d :: ds, r)
      | None =>
          if after && Ascii.eqb c "_" then
            match s' with
            | String c2 _ =>
                match digit_of c2 with
                | Some _ => digitpart false s'
                | None => ([], s)
                end
            | EmptyString => ([], s)
            end
          else ([], s)
      end
  end.

Definition digits_value (ds : list Z) : Z :=
  fold_left (fun acc d => 10 * acc + d) ds 0.

Fixpoint drop_zeros (ds : list Z) : list Z :=
  match ds with
  | 0 :: ds' => drop_zeros ds'
  | _ => ds
  end.

(** An optional sign; [true] for a minus. *)
Definition sign (s : string) : bool * string :=
  match s with
  | String "-" r => (true, r)
  | String "+" r => (false, r)
  | _ => (false, s)
  end.

(** The exponent part, or nothing, up to the end of the string. *)
Definition exponent (s : string) : option Z :=
  match s with
  | EmptyString => Some 0
  | String c r =>
      if Ascii.eqb c "e" || Ascii.eqb c "E" then
        let '(neg, r') := sign r in
        match digitpart false r' with
        | (d :: ds, EmptyString) => Some (cond_Zopp neg (digits_value (d :: ds)))
        | _ => None
        end
      else None
  end.

(** An unsigned decimal literal [digits [. digits] [e exponent]]: its
    digits and the power of ten they are scaled by. *)
Definition decimal (s : string) : option (list Z * Z) :=
  let '(ip, r1) := digitpart false s in
  let '(fp, r2) :=
    match r1 with
    | String "." r => digitpart false r
    | _ => ([], r1)
    end in
  match (ip ++ fp)%list with
  | [] => None
  | ds =>
      match exponent r2 with
      | Some e => Some (ds, e - Z.of_nat (List.length fp))
      | None => None
      end
  end.

(** The binary64 value nearest to [digits * 10 ^ e10] (ties to even).
    Magnitudes beyond the range of binary64 are cut off before any
    power of ten is computed. *)
Definition of_decimal (neg : bool) (ds : list Z) (e10 : Z) : spec_float :=
  match digits_value ds with
  | Zpos p =>
      let d := Z.of_nat (List.length (drop_zeros ds)) in
      if 310 <? d + e10 then S754_infinity neg
      else if d + e10 <? -330 then S754_zero neg
      else if 0 <=? e10 then binary_round prec emax neg (Z.to_pos (Zpos p * 10 ^ e10)) 0
      else SFdiv prec emax (S754_finite neg p 0)
                           (S754_finite false (Z.to_pos (10 ^ (- e10))) 0)
  | _ => S754_zero neg
  end.

(** The whitespace that [float] skips on both sides of the literal: TAB,
    LF, VT, FF, CR and the space. *)
Definition py_isspace (c : ascii) : bool :=
  let n := nat_of_ascii c in
  ((9 <=? n) && (n <=? 13))%nat || (n =? 32)%nat.

Fixpoint skip_leading (s : string) : string :=
  match s with
  | EmptyString => EmptyString
  | String c s' => if py_isspace c then skip_leading s' else s
  end.

Fixpoint skip_trailing (s : string) : string :=
  match s with
  | EmptyString => EmptyString
  | String c s' =>
      match skip_trailing s' with
      | EmptyString => if py_isspace c then EmptyString else String c EmptyString
      | r => String c r
      end
  end.

(** [float(s)] on ASCII text; [None] stands for the [ValueError] of a
    malformed literal.  (On text beyond the ASCII range [float] also
    reads the decimal digits and skips the whitespace of Unicode; such
    text is read here as malformed.) *)
Definition of_string (s : string) : option spec_float :=
  let '(neg, r) := sign (skip_trailing (skip_leading s)) in
  let w := PyStr.lower r in
  if String.eqb w "inf" || String.eqb w "infinity" then Some (S754_infinity neg)
  else if String.eqb w "nan" then Some S754_nan
  else
    match decimal r with
    | Some (ds, e10) => Some (of_decimal neg ds e10)
    | None => None
    end.

End PyFloat.

(** ** [hashlib.md5(...).hexdigest()] (RFC 1321) *)

Module MD5.

Definition mask32 : Z := 0xffffffff.
Definition add32 (x y : Z) : Z := Z.land (x + y) mask32.
Definition not32 (x : Z) : Z := Z.lxor x mask32.
Definition rotl32 (x n : Z) : Z :=
  Z.lor (Z.land (Z.shiftl x n) mask32) (Z.shiftr x (32 - n)).

(** The additive constant and the rotation of each of the 64 steps. *)
Definition steps : list (Z * Z) :=
  [ (0xd76aa478, 7); (0xe8c7b756, 12); (0x242070db, 17); (0xc1bdceee, 22);
    (0xf57c0faf, 7); (0x4787c62a, 12); (0xa8304613, 17); (0xfd469501, 22);
    (0x698098d8, 7); (0x8b44f7af, 12); (0xffff5bb1, 17); (0x895cd7be, 22);
    (0x6b901122, 7); (0xfd987193, 12); (0xa679438e, 17); (0x49b40821, 22);
    (0xf61e2562, 5); (0xc040b340, 9); (0x265e5a51, 14); (0xe9b6c7aa, 20);
    (0xd62f105d, 5); (0x02441453, 9); (0xd8a1e681, 14); (0xe7d3fbc8, 20);
    (0x21e1cde6, 5); (0xc33707d6, 9); (0xf4d50d87, 14); (0x455a14ed, 20);
    (0xa9e3e905, 5); (0xfcefa3f8, 9); (0x676f02d9, 14); (0x8d2a4c8a, 20);
    (0xfffa3942, 4); (0x8771f681, 11); (0x6d9d6122, 16); (0xfde5380c, 23);
    (0xa4beea44, 4); (0x4bdecfa9, 11); (0xf6bb4b60, 16); (0xbebfbc70, 23);
    (0x289b7ec6, 4); (0xeaa127fa, 11); (0xd4ef3085, 16); (0x04881d05, 23);
    (0xd9d4d039, 4); (0xe6db99e5, 11); (0x1fa27cf8, 16); (0xc4ac5665, 23);
    (0xf4292244, 6); (0x432aff97, 10); (0xab9423a7, 15); (0xfc93a039, 21);
    (0x655b59c3, 6); (0x8f0ccc92, 10); (0xffeff47d, 15); (0x85845dd1, 21);
    (0x6fa87e4f, 6); (0xfe2ce6e0, 10); (0xa3014314, 15); (0x4e0811a1, 21);
    (0xf7537e82, 6); (0xbd3af235, 10); (0x2ad7d2bb, 15); (0xeb86d391, 21) ].

Record state := State { sa : Z; sb : Z; sc : Z; sd : Z }.

Definition init : state :=
  State 0x67452301 0xefcdab89 0x98badcfe 0x10325476.

(** The mixing function and the message word index of step [i]. *)
Definition mix (i : Z) (b c d : Z) : Z * Z :=
  if i <? 16 then (Z.lor (Z.land b c) (Z.land (not32 b) d), i)
  else if i <? 32 then (Z.lor (Z.land d b) (Z.land (not32 d) c), (5 * i + 1) mod 16)
  else if i <? 48 then (Z.lxor (Z.lxor b c) d, (3 * i + 5) mod 16)
  else (Z.lxor c (Z.lor b (not32 d)), (7 * i) mod 16).

Definition step (m : list Z) (acc : Z * state) (ks : Z * Z) : Z * state :=
  let '(i, State a b c d) := acc in
  let '(k, s) := ks in
  let '(f, g) := mix i b c d in
  let f' := add32 (add32 (add32 f a) k) (nth (Z.to_nat g) m 0) in
  (i + 1, State d (add32 b (rotl32 f' s)) b c).

(** One 512-bit block, given as its sixteen little-endian words. *)
Definition compress (st : state) (m : list Z) : state :=
  let '(State a b c d) := snd (fold_left (step m) steps (0, st)) in
  State (add32 (sa st) a) (add32 (sb st) b) (add32 (sc st) c) (add32 (sd st) d).

Definition le_word (bs : list Z) : Z :=
  fold_right (fun b acc => b + 256 * acc) 0 bs.

(** [chunks k n l]: the first [n] consecutive pieces of length [k] of [l]. *)
Fixpoint chunks (k n : nat) (l : list Z) : list (list Z) :=
  match n with
  | O => []
  | S n' => firstn k l :: chunks k n' (skipn k l)
  end.

Definition le_bytes (n : nat) (z : Z) : list Z :=
  map (fun i => Z.land (Z.shiftr z (8 * Z.of_nat i)) 255) (seq 0 n).

(** Padding: a one bit, zeros up to 56 modulo 64 bytes, then the bit
    length on 64 bits. *)
Definition pad (msg : list Z) : list Z :=
  let len := Z.of_nat (List.length msg) in
  let zeros := Z.to_nat ((55 - len) mod 64) in
  (msg ++ 128 :: repeat 0 zeros ++ le_bytes 8 ((8 * len) mod 2 ^ 64))%list.

Definition digest_state (msg : list Z) : state :=
  let p := pad msg in
  let blocks := chunks 64 (Nat.div (List.length p) 64) p in
  fold_left (fun st blk => compress st (map le_word (chunks 4 16 blk))) blocks init.

Definition digest (msg : list Z) : list Z :=
  let '(State a b c d) := digest_state msg in
  (le_bytes 4 a ++ le_bytes 4 b ++ le_bytes 4 c ++ le_bytes 4 d)%list.

Definition hexchar (n : Z) : ascii :=
  ascii_of_nat (Z.to_nat (if n <? 10 then 48 + n else 87 + n)).

Fixpoint hex (bs : list Z) : string :=
  match bs with
  | [] => EmptyString
  | b :: bs' => String (hexchar (b / 16)) (String (hexchar (b mod 16)) (hex bs'))
  end.

Fixpoint bytes_of (s : string) : list Z :=
  match s with
  | EmptyString => []
  | String c s' => Z.of_nat (nat_of_ascii c) :: bytes_of s'
  end.

(** [hashlib.md5(data).hexdigest()] *)
Definition hexdigest (data : string) : string := hex (digest (bytes_of data)).

End MD5.

(** A Python number: the sizes the classifiers return are [int]s (PIL,
    pyjxl, the fallback [(0, 0)] of the SVG classifier) or [float]s (the
    SVG attributes). *)
Inductive pynum :=
| PyInt (z : Z)
| PyFloat (x : spec_float).

Module PyNum.

(** [a * b]; a mixed product converts the [int] operand to [float]. *)
Definition mul (a b : pynum) : pynum :=
  match a, b with
  | PyInt x, PyInt y => PyInt (x * y)
  | PyFloat x, PyFloat y => PyFloat (PyFloat.mul x y)
  | PyInt x, PyFloat y => PyFloat (PyFloat.mul (PyFloat.of_int x) y)
  | PyFloat x, PyInt y => PyFloat (PyFloat.mul x (PyFloat.of_int y))
  end.

(** Comparison with an [int]; [None] when the number is NaN, for which
    every ordered comparison and [==] are false. *)
Definition compare_int (a : pynum) (z : Z) : option comparison :=
  match a with
  | PyInt x => Some (x ?= z)
  | PyFloat x => PyFloat.compare_int x z
  end.

(** [a >= z] *)
Definition ge_int (a : pynum) (z : Z) : bool :=
  match compare_int a z with
  | Some Lt | None => false
  | Some _ => true
  end.

(** [a == z] *)
Definition eq_int (a : pynum) (z : Z) : bool :=
  match compare_int a z with
  | Some Eq => true
  | _ => false
  end.

End PyNum.

(** ** Exceptions, files, printed lines *)

(** The subclasses of [Exception] that the program can meet, each with
    the text [str(e)] prints. *)
Inductive exn :=
| ValueError (msg : string)
| ParseError (msg : string)
| UnidentifiedImageError (msg : string)
| OSError (msg : string)
| OtherError (msg : string).

Definition exn_str (e : exn) : string :=
  match e with
  | ValueError m | ParseError m | UnidentifiedImageError m | OSError m | OtherError m => m
  end.

Inductive result (A : Type) :=
| Ok (a : A)
| Raise (e : exn).
Arguments Ok {A} a.
Arguments Raise {A} e.

(** The dictionary handed to [json.dump]. *)
Record metadata := Metadata {
  md_url : string;
  md_format : string;
  md_size : pynum * pynum
}.

(** What a file of the output directory holds: the bytes of an image, or
    the JSON rendering of a metadata dictionary ([json.dump] is a function
    of the dictionary, so the dictionary stands for the text). *)
Inductive file :=
| ImageBytes (content : string)
| MetadataJson (m : metadata).

(** An image element of the extraction result: a JSON object whose values
    are strings or [null] ([None]). *)
Abbreviation img_element := (gmap string (option string)).

(** The lines the program prints, one constructor per [print] call of the
    source, with the values it interpolates. *)
Inductive line :=
| ErrorSvgSize (msg : string)
| Downloaded (filename : string) (width height : pynum) (format : string)
| MetadataSaved (filename : string)
| SkippedTooSmall (url : string) (width height : pynum) (format : string)
| ErrorSvg (url msg : string)
| ErrorJpegXl (url msg : string)
| NotRecognized (url : string)
| ErrorImage (url msg : string)
| FailedDownload (url : string) (status : Z)
| ErrorDownloading (url msg : string)
| SendingRequest
| ResponseReceived (status : Z)
| ExtractedData (data : gmap string (list img_element))
| InvalidUrlSkipped (full_url : string)
| FoundUrls (n : nat)
| ProcessingImage (url : string)
| SkippedNotImage (url : string)
| ErrorValidating (url msg : string)
| FailedScrape (status : Z)
| ResponseText (text : string)
| ErrorScraping (msg : string).

(** The state the program acts on: the files and directories of the file
    system and the standard output. *)
Record world := World {
  files : gmap string file;
  dirs : gset string;
  stdout : list line
}.

(** ** The libraries the program calls *)

Record response := Response {
  status_code : Z;
  headers : gmap string string;
  content : string
}.

(** What [Image.open] gives: [img.size] and [img.format]. *)
Record pil_image := PilImage {
  pil_size : Z * Z;
  pil_format : string
}.

Record Libs := {
  (** [ET.fromstring(content).attrib]: the attributes of the root element *)
  et_fromstring : string -> result (gmap string string);
  (** [pyjxl.decode(BytesIO(content)).size] *)
  pyjxl_decode : string -> result (Z * Z);
  (** [Image.open(BytesIO(content))] *)
  image_open : string -> result pil_image;
  (** [requests.get(url)] and [requests.head(url)] *)
  requests_get : string -> result response;
  requests_head : string -> result response;
  (** the error of [open(path, mode)] for writing, if it fails *)
  open_error : string -> option exn;
  (** the error of [os.makedirs(path)], if it fails *)
  makedirs_error : string -> option exn;
  (** the process environment after [load_dotenv()] *)
  environ : gmap string string;
  (** [ScrapingBeeClient(api_key).get(url, params)]: status code, [ok],
      content and text of the response *)
  client_get : string -> string -> result (Z * bool * string * string);
  (** [json.loads(content)] on an extraction result *)
  json_loads : string -> result (gmap string (list img_element));
  (** [urllib.parse.urljoin(base, url)] *)
  urljoin : string -> string -> result string
}.

(** ** The state-and-exception monad *)

Definition M (A : Type) : Type := world -> result A * world.

Definition ret {A} (a : A) : M A := fun w => (Ok a, w).

Definition bind {A B} (m : M A) (k : A -> M B) : M B :=
  fun w =>
    match m w with
    | (Ok a, w') => k a w'
    | (Raise e, w') => (Raise e, w')
    end.

Definition raise {A} (e : exn) : M A := fun w => (Raise e, w).

(** [try: body except Exception as e: handler(e)] *)
Definition try_except {A} (body : M A) (handler : exn -> M A) : M A :=
  fun w =>
    match body w with
    | (Ok a, w') => (Ok a, w')
    | (Raise e, w') => handler e w'
    end.

(** The outcome of a library call, in the monad. *)
Definition call {A} (r : result A) : M A := fun w => (r, w).

Notation "'let*' x ':=' m 'in' k" := (bind m (fun x => k))
  (at level 10, x pattern, m at level 100, k at level 200).
Notation "m ';;;' k" := (bind m (fun _ => k))
  (at level 100, k at level 200, right associativity).

(** [print(...)] of a line that the output can encode: the line is
    appended to the output.  On a text with a lone surrogate [print]
    raises [UnicodeEncodeError] instead; such a text has no
    representation here, and the lines that can be encoded are told by
    [printable] below. *)
Definition print (l : line) : M unit :=
  fun w => (Ok tt, World (files w) (dirs w) (stdout w ++ [l])).

(** [for x in xs: body(x)] *)
Fixpoint for_each {A} (xs : list A) (body : A -> M unit) : M unit :=
  match xs with
  | [] => ret tt
  | x :: xs' => body x ;;; for_each xs' body
  end.

(** ** The functions of [main.py] *)

(** [os.path.join(folder, name)] on a POSIX system. *)
Definition path_join (folder name : string) : string :=
  if PyStr.startswith name "/" then name
  else if String.eqb folder "" then name
  else if PyStr.endswith_char folder "/" then folder ++ name
  else folder ++ "/" ++ name.

(** [def md5_hash(url)] *)
Definition md5_hash (url : string) : string := MD5.hexdigest url.

(** [x or y] on values that are a string or [None]. *)
Definition or_none (x y : option string) : option string :=
  match x with
  | Some s => if PyStr.truthy s then x else y
  | None => y
  end.

Section Program.

Variable L : Libs.

(** [with open(path, mode) as f: f.write(data)] and
    [with open(path, "w") as f: json.dump(data, f, indent=2)]: the file
    is created or replaced, unless opening it fails. *)
Definition write_file (path : string) (data : file) : M unit :=
  fun w =>
    match open_error L path with
    | Some e => (Raise e, w)
    | None => (Ok tt, World (<[path := data]> (files w)) (dirs w) (stdout w))
    end.

(** [os.path.exists(path)] *)
Definition path_exists (path : string) : M bool :=
  fun w => (Ok (bool_decide (path ∈ dirs w) || bool_decide (is_Some (files w !! path))), w).

(** [os.makedirs(path)] *)
Definition makedirs (path : string) : M unit :=
  fun w =>
    match makedirs_error L path with
    | Some e => (Raise e, w)
    | None => (Ok tt, World (files w) ({[path]} ∪ dirs w) (stdout w))
    end.

(** [float(s)] *)
Definition float (s : string) : M spec_float :=
  match PyFloat.of_string s with
  | Some x => ret x
  | None => raise (ValueError ("could not convert string to float: '" ++ s ++ "'"))
  end.

(** [def get_api_key()] *)
Definition get_api_key : M string :=
  match environ L !! "SCRAPINGBEE_API_KEY" with
  | Some api_key =>
      if PyStr.truthy api_key then ret api_key
      else raise (ValueError "SCRAPINGBEE_API_KEY not found in .env file")
  | None => raise (ValueError "SCRAPINGBEE_API_KEY not found in .env file")
  end.

(** The text of a dimension attribute with its unit removed:
    [s.replace("px", "").replace("em", "").replace("%", "").strip() or "0"] *)
Definition strip_unit (s : string) : string :=
  PyStr.or_else
    (PyStr.strip (PyStr.replace "%" "" (PyStr.replace "em" "" (PyStr.replace "px" "" s))))
    "0".

(** [def get_svg_size(content)] *)
Definition get_svg_size (content : string) : M (pynum * pynum) :=
  try_except
    (let* attrib := call (et_fromstring L content) in
     let width := default "0" (attrib !! "width") in
     let height := default "0" (attrib !! "height") in
     let* width := float (strip_unit width) in
     let* height := float (strip_unit height) in
     ret (if PyFloat.truthy width && PyFloat.truthy height
          then (PyFloat width, PyFloat height)
          else (PyInt 0, PyInt 0)))
    (fun e =>
       print (ErrorSvgSize (exn_str e)) ;;;
       ret (PyInt 0, PyInt 0)).

(** [def handle_svg(url, response_content, folder, min_area)] *)
Definition handle_svg (url response_content folder : string) (min_area : Z) : M unit :=
  try_except
    (let* (width, height) := get_svg_size response_content in
     if PyNum.ge_int (PyNum.mul width height) min_area then
       let img_hash := md5_hash url in
       let extension := "svg" in
       let filename := path_join folder (img_hash ++ "." ++ extension) in
       write_file filename (ImageBytes response_content) ;;;
       print (Downloaded filename width height "SVG") ;;;
       let metadata := Metadata url "SVG" (width, height) in
       let metadata_filename := path_join folder (img_hash ++ ".json") in
       write_file metadata_filename (MetadataJson metadata) ;;;
       print (MetadataSaved metadata_filename)
     else
       print (SkippedTooSmall url width height "SVG"))
    (fun e => print (ErrorSvg url (exn_str e))).

(** [def handle_jpeg_xl(url, response_content, folder)] *)
Definition handle_jpeg_xl (url response_content folder : string) : M unit :=
  try_except
    (let img_hash := md5_hash url in
     let extension := "jxl" in
     let filename := path_join folder (img_hash ++ "." ++ extension) in
     write_file filename (ImageBytes response_content) ;;;
     let* (width, height) := call (pyjxl_decode L response_content) in
     print (Downloaded filename (PyInt width) (PyInt height) "JPEG XL") ;;;
     let metadata := Metadata url "JPEG XL" (PyInt width, PyInt height) in
     let metadata_filename := path_join folder (img_hash ++ ".json") in
     write_file metadata_filename (MetadataJson metadata) ;;;
     print (MetadataSaved metadata_filename))
    (fun e => print (ErrorJpegXl url (exn_str e))).

(** [def handle_generic_image(url, response_content, folder, min_area)] *)
Definition handle_generic_image (url response_content folder : string) (min_area : Z) : M unit :=
  try_except
    (let* img := call (image_open L response_content) in
     let '(width, height) := pil_size img in
     if PyNum.ge_int (PyNum.mul (PyInt width) (PyInt height)) min_area then
       let img_hash := md5_hash url in
       let extension := PyStr.lower (pil_format img) in
       let filename := path_join folder (img_hash ++ "." ++ extension) in
       write_file filename (ImageBytes response_content) ;;;
       print (Downloaded filename (PyInt width) (PyInt height) (pil_format img)) ;;;
       let metadata := Metadata url (pil_format img) (PyInt width, PyInt height) in
       let metadata_filename := path_join folder (img_hash ++ ".json") in
       write_file metadata_filename (MetadataJson metadata) ;;;
       print (MetadataSaved metadata_filename)
     else
       print (SkippedTooSmall url (PyInt width) (PyInt height) (pil_format img)))
    (fun e =>
       match e with
       | UnidentifiedImageError _ => print (NotRecognized url)
       | _ => print (ErrorImage url (exn_str e))
       end).

(** [def download_image(url, folder, min_area)] *)
Definition download_image (url folder : string) (min_area : Z) : M unit :=
  try_except
    (let* response := call (requests_get L url) in
     if status_code response =? 200 then
       let content_type := default "" (headers response !! "Content-Type") in
       if PyStr.contains "image/svg+xml" content_type then
         handle_svg url (content response) folder min_area
       else if PyStr.contains "image/jxl" content_type then
         handle_jpeg_xl url (content response) folder
       else
         handle_generic_image url (content response) folder min_area
     else
       print (FailedDownload url (status_code response)))
    (fun e => print (ErrorDownloading url (exn_str e))).

(** The body of the loop of [scrape_images] over the extracted image
    elements: the URLs appended to [img_urls] for one element. *)
Definition collect_image (url : string) (img : img_element) : M (list string) :=
  let src := or_none (mjoin (img !! "src")) (mjoin (img !! "data-src")) in
  match src with
  | Some s =>
      if PyStr.truthy s then
        let* full_url := call (urljoin L url s) in
        if negb (PyStr.startswith full_url "http") then
          print (InvalidUrlSkipped full_url) ;;;
          ret []
        else ret [full_url]
      else ret []
  | None => ret []
  end.

(** [for img in data.get("all_images", []): ...], giving [img_urls]. *)
Fixpoint collect_images (url : string) (imgs : list img_element) : M (list string) :=
  match imgs with
  | [] => ret []
  | img :: imgs' =>
      let* found := collect_image url img in
      let* rest := collect_images url imgs' in
      ret (found ++ rest)%list
  end.

(** The body of the loop of [scrape_images] over [img_urls]. *)
Definition process_image (output_folder : string) (min_area : Z) (img_url : string) : M unit :=
  try_except
    (let* head_response := call (requests_head L img_url) in
     if (status_code head_response =? 200)
        && PyStr.contains "image" (default "" (headers head_response !! "Content-Type"))
     then
       print (ProcessingImage img_url) ;;;
       download_image img_url output_folder min_area
     else
       print (SkippedNotImage img_url))
    (fun e => print (ErrorValidating img_url (exn_str e))).

(** [def scrape_images(url, output_folder, min_area)] *)
Definition scrape_images (url output_folder : string) (min_area : Z) : M unit :=
  let* present := path_exists output_folder in
  (if present then ret tt else makedirs output_folder) ;;;
  let* api_key := get_api_key in
  try_except
    (print SendingRequest ;;;
     let* (status, ok, body, text) := call (client_get L api_key url) in
     print (ResponseReceived status) ;;;
     if ok : bool then
       let* data := call (json_loads L body) in
       print (ExtractedData data) ;;;
       let* img_urls := collect_images url (default [] (data !! "all_images")) in
       print (FoundUrls (List.length img_urls)) ;;;
       for_each img_urls (process_image output_folder min_area)
     else
       print (FailedScrape status) ;;;
       print (ResponseText text))
    (fun e => print (ErrorScraping (exn_str e))).

End Program.

(** ** A concrete run-time environment

    The behaviour of the libraries on a handful of URLs and payloads, used
    to run the program on concrete inputs.  Each entry is what the real
    library returns on that input: the XML parser gives the attributes of
    the root element, the decoders give the size of the picture or fail on
    bytes that are no picture. *)

Module Scenario.

Definition svg_300x200 : string := "<svg width='300' height='200'></svg>".
Definition svg_100px : string := "<svg width='100px' height='100px'></svg>".
Definition svg_negative : string := "<svg width='-5' height='-3'></svg>".
Definition svg_unsized : string := "<svg></svg>".
Definition not_xml : string := "not xml at all".
(** The payloads of binary pictures are named by what they decode to. *)
Definition jxl_10x10 : string := "(a JPEG XL stream of a 10x10 picture)".
Definition png_800x600 : string := "(a PNG stream of an 800x600 picture)".
Definition png_250x200 : string := "(a PNG stream of a 250x200 picture)".
Definition garbage : string := "(bytes that are no picture)".

(** The floats 300.0, 200.0, -5.0 and -3.0. *)
Definition float_300 : spec_float := S754_finite false 5277655813324800 (-44).
Definition float_200 : spec_float := S754_finite false 7036874417766400 (-45).
Definition float_minus_5 : spec_float := S754_finite true 5629499534213120 (-50).
Definition float_minus_3 : spec_float := S754_finite true 6755399441055744 (-51).

Definition table {A} (rows : list (string * A)) (otherwise : A) (key : string) : A :=
  match find (fun row => String.eqb (fst row) key) rows with
  | Some row => snd row
  | None => otherwise
  end.

Definition attributes (kv : list (string * string)) : result (gmap string string) :=
  Ok (list_to_map kv).

Definition image_response (content_type body : string) : result response :=
  Ok (Response 200 {[ "Content-Type" := content_type ]} body).

Definition pages : list (string * result response) :=
  [ ("https://example.com/logo.svg", image_response "image/svg+xml" svg_300x200);
    ("https://example.com/icon.svg", image_response "image/svg+xml" svg_100px);
    ("https://example.com/flip.svg", image_response "image/svg+xml" svg_negative);
    ("https://example.com/plain.svg", image_response "image/svg+xml" svg_unsized);
    ("https://example.com/broken.svg", image_response "image/svg+xml; charset=utf-8" not_xml);
    ("https://example.com/tiny.jxl", image_response "image/jxl" jxl_10x10);
    ("https://example.com/broken.jxl", image_response "image/jxl" garbage);
    ("https://example.com/photo.png", image_response "image/png" png_800x600);
    ("https://example.com/boundary.png", image_response "image/png" png_250x200);
    ("https://example.com/bad.png", image_response "image/png" garbage);
    ("https://example.com/gone.svg",
     Ok (Response 404 {[ "Content-Type" := "image/svg+xml" ]} "")) ].

Definition element (src data_src : option (option string)) : img_element :=
  let with_src := match src with Some v => <[ "src" := v ]> ∅ | None => ∅ end in
  match data_src with Some v => <[ "data-src" := v ]> with_src | None => with_src end.

Definition extraction : gmap string (list img_element) :=
  {[ "all_images" :=
       [ element (Some (Some "photo.png")) None;
         element (Some (Some "broken.jxl")) (Some (Some "lazy.png"));
         element (Some None) (Some (Some "logo.svg")) ] ]}.

Definition libs : Libs := {|
  et_fromstring :=
    table [ (svg_300x200, attributes [("width", "300"); ("height", "200")]);
            (svg_100px, attributes [("width", "100px"); ("height", "100px")]);
            (svg_negative, attributes [("width", "-5"); ("height", "-3")]);
            (svg_unsized, attributes []) ]
          (Raise (ParseError "syntax error: line 1, column 0"));
  pyjxl_decode :=
    table [ (jxl_10x10, Ok (10, 10)) ]
          (Raise (OtherError "decoding failed"));
  image_open :=
    table [ (png_800x600, Ok (PilImage (800, 600) "PNG"));
            (png_250x200, Ok (PilImage (250, 200) "PNG")) ]
          (Raise (UnidentifiedImageError "cannot identify image file"));
  requests_get := table pages (Raise (OtherError "connection refused"));
  requests_head :=
    fun url =>
      match table pages (Raise (OtherError "connection refused")) url with
      | Ok r => Ok (Response (status_code r) (headers r) "")
      | Raise e => Raise e
      end;
  open_error := fun _ => None;
  makedirs_error :=
    table [ ("/root/images", Some (OSError "[Errno 13] Permission denied: '/root/images'")) ]
          None;
  environ := {[ "SCRAPINGBEE_API_KEY" := "secret" ]};
  client_get := fun _ _ => Ok (200, true, "{...}", "{...}");
  json_loads := fun _ => Ok extraction;
  urljoin := fun base url => Ok ("https://example.com/" ++ url)
|}.

(** The same libraries in a process without the credential. *)
Definition without_key (L : Libs) : Libs := {|
  et_fromstring := et_fromstring L;
  pyjxl_decode := pyjxl_decode L;
  image_open := image_open L;
  requests_get := requests_get L;
  requests_head := requests_head L;
  open_error := open_error L;
  makedirs_error := makedirs_error L;
  environ := ∅;
  client_get := client_get L;
  json_loads := json_loads L;
  urljoin := urljoin L
|}.

(** A fresh run: no file, no directory, nothing printed. *)
Definition start : world := World ∅ ∅ [].

(** The files of the output directory after a run, as a list. *)
Definition listing (w : world) : list (string * file) := map_to_list (files w).

End Scenario.

(** * Properties *)

(** ** Vocabulary *)

(** State-independent computations.

    Everything below the driver neither reads the file system nor the
    output: what a call returns, writes and prints is the same from every
    state.  [effect_of m r D out] says that [m] returns [r], overlays the
    files [D] on those present and appends the lines [out]. *)

Definition effect_of {A} (m : M A) (r : result A) (D : gmap string file) (out : list line) : Prop :=
  forall w, m w = (r, World (D ∪ files w) (dirs w) (stdout w ++ out)).

Definition uniform {A} (m : M A) : Prop := exists r D out, effect_of m r D out.

(** A uniform computation that returns normally. *)
Definition total {A} (m : M A) : Prop := exists a D out, effect_of m (Ok a) D out.

(** The output directory after the image and its metadata sidecar were
    written under the fingerprint of [url]: the sidecar is written last. *)
Definition persist (folder url extension content : string) (m : metadata)
    (fs : gmap string file) : gmap string file :=
  <[path_join folder (md5_hash url ++ ".json") := MetadataJson m]>
    (<[path_join folder (md5_hash url ++ "." ++ extension) := ImageBytes content]> fs).

(** A dimension attribute that is missing from the root element, or whose
    text converts to the float zero. *)
Definition zero_dimension (attrib : gmap string string) (key : string) : Prop :=
  match attrib !! key with
  | None => True
  | Some v =>
      exists x, PyFloat.of_string (strip_unit v) = Some x /\ PyFloat.truthy x = false
  end.

(** A lowercase hexadecimal digit. *)
Definition is_hex_digit (c : ascii) : bool :=
  let n := nat_of_ascii c in
  ((48 <=? n) && (n <=? 57))%nat || ((97 <=? n) && (n <=? 102))%nat.

(** A string of lowercase hexadecimal digits. *)
Fixpoint all_hex (s : string) : bool :=
  match s with
  | EmptyString => true
  | String c s' => is_hex_digit c && all_hex s'
  end.

(** Every file that the handling of a URL leaves behind was there
    before, or is named by the fingerprint of the URL. *)
Definition fingerprint_named (folder url : string) (w w' : world) : Prop :=
  forall p, is_Some (files w' !! p) ->
    is_Some (files w !! p) \/
    exists extension, p = path_join folder (md5_hash url ++ "." ++ extension).

(** A dimension attribute that is missing, or whose text converts to a
    float that is zero or negative. *)
Definition nonpositive_dimension (attrib : gmap string string) (key : string) : Prop :=
  match attrib !! key with
  | None => True
  | Some v =>
      exists x c, PyFloat.of_string (strip_unit v) = Some x /\
                  PyFloat.compare_int x 0 = Some c /\ c <> Gt
  end.

(** A key of an image element that is absent, [null] or the empty string. *)
Definition falsy_entry (img : img_element) (key : string) : Prop :=
  img !! key = None \/ img !! key = Some None \/ img !! key = Some (Some "").

(** The handler that [download_image] selects for a response: the
    declared content type decides, the SVG test first. *)
Inductive route := Svg | JpegXl | Generic.

Definition route_of (r : response) : route :=
  let content_type := default "" (headers r !! "Content-Type") in
  if PyStr.contains "image/svg+xml" content_type then Svg
  else if PyStr.contains "image/jxl" content_type then JpegXl
  else Generic.

(** The call that [download_image] makes for a response of status 200. *)
Definition handler_of (L : Libs) (url folder : string) (min_area : Z) (r : response) : M unit :=
  match route_of r with
  | Svg => handle_svg L url (content r) folder min_area
  | JpegXl => handle_jpeg_xl L url (content r) folder
  | Generic => handle_generic_image L url (content r) folder min_area
  end.








(** What storing one image twice amounts to, for a handler [run] that
    stores [content] under the fingerprint of [url] with the sidecar [m]
    and prints [lines]: both runs return, each writes the two files named
    by the fingerprint, whatever they held before, the second run leaves
    the directory as the first left it, and it prints what the first
    printed, with no other word on the files it replaces. *)
Definition stored_in_place (folder url extension content : string) (m : metadata)
    (lines : list line) (run : M unit) (w : world) : Prop :=
  let image := path_join folder (md5_hash url ++ "." ++ extension) in
  let sidecar := path_join folder (md5_hash url ++ ".json") in
  let first := run w in
  let second := run (snd first) in
  (fst first = Ok tt /\ fst second = Ok tt) /\
  (files (snd first)
     = <[sidecar := MetadataJson m]> (<[image := ImageBytes content]> (files w)) /\
   files (snd second)
     = <[sidecar := MetadataJson m]> (<[image := ImageBytes content]> (files (snd first)))) /\
  files (snd second) = files (snd first) /\
  ((extension <> "json" -> files (snd second) !! image = Some (ImageBytes content)) /\
   files (snd second) !! sidecar = Some (MetadataJson m)) /\
  dom (files (snd second)) = {[image; sidecar]} ∪ dom (files w) /\
  (stdout (snd first) = (stdout w ++ lines)%list /\
   stdout (snd second) = (stdout (snd first) ++ lines)%list).

(** ** Further vocabulary *)

(** A string whose characters all satisfy [P]. *)
Fixpoint forall_chars (P : ascii -> bool) (s : string) : bool :=
  match s with
  | EmptyString => true
  | String c s' => P c && forall_chars P s'
  end.

(** The characters of a plain decimal number: digits, the point and the
    signs. *)
Definition number_char (c : ascii) : bool :=
  let n := nat_of_ascii c in
  ((48 <=? n) && (n <=? 57))%nat || (n =? 46)%nat || (n =? 45)%nat || (n =? 43)%nat.

(** A path of the form [os.path.join(folder, <fingerprint of url>.<extension>)]. *)
Definition url_path (folder url p : string) : Prop :=
  exists extension, p = path_join folder (md5_hash url ++ "." ++ extension).

(** A path named by the fingerprint of some URL under [folder]. *)
Definition fingerprint_path (folder p : string) : Prop :=
  exists url, url_path folder url p.

(** From [w] to [w'] every path kept the content it had (or stayed
    absent), except paths that satisfy [P], which hold a file in [w']:
    nothing is deleted, and nothing outside [P] is created or
    overwritten. *)
Definition touches_only (P : string -> Prop) (w w' : world) : Prop :=
  forall p,
    files w' !! p = files w !! p \/ (is_Some (files w' !! p) /\ P p).

(** A computation that, from every state, only touches paths in [P]. *)
Definition keeps_to {A} (P : string -> Prop) (m : M A) : Prop :=
  forall w, touches_only P w (snd (m w)).

(** [os.path.exists(path)] as a predicate on states. *)
Definition exists_in (path : string) (w : world) : Prop :=
  path ∈ dirs w \/ is_Some (files w !! path).

(** The source string that [img.get("src") or img.get("data-src")]
    selects from an image element. *)
Definition selected_source (img : img_element) : option string :=
  or_none (mjoin (img !! "src")) (mjoin (img !! "data-src")).

(** ** Further concrete inputs

    Libraries that behave as [Scenario.libs] except on the inputs named
    here: documents with other units or with [nan], an output folder in
    which no file can be opened, one in which only the sidecars cannot, a
    source on which [urljoin] raises, and pages whose extraction fails. *)

Module Cases.

Definition svg_points : string := "<svg width='10pt' height='10pt'></svg>".
Definition svg_nan : string := "<svg width='nan' height='100'></svg>".

(** [urljoin] raises [ValueError] on a reference whose host opens a
    bracket that is never closed. *)
Definition bad_reference : string := "//[".

Definition extraction_with_bad_reference : gmap string (list img_element) :=
  {[ "all_images" :=
       [ Scenario.element (Some (Some "photo.png")) None;
         Scenario.element (Some (Some bad_reference)) None ] ]}.

Definition libs : Libs := {|
  et_fromstring :=
    fun content =>
      if String.eqb content svg_points then
        Scenario.attributes [("width", "10pt"); ("height", "10pt")]
      else if String.eqb content svg_nan then
        Scenario.attributes [("width", "nan"); ("height", "100")]
      else et_fromstring Scenario.libs content;
  pyjxl_decode := pyjxl_decode Scenario.libs;
  image_open := image_open Scenario.libs;
  requests_get := requests_get Scenario.libs;
  requests_head := requests_head Scenario.libs;
  open_error :=
    fun path =>
      if PyStr.startswith path "readonly/" then
        Some (OSError "[Errno 13] Permission denied")
      else if PyStr.startswith path "quota/" && PyStr.contains ".json" path then
        Some (OSError "[Errno 122] Disk quota exceeded")
      else None;
  makedirs_error := makedirs_error Scenario.libs;
  environ := environ Scenario.libs;
  client_get :=
    fun api_key url =>
      if String.eqb url "https://example.com/unreachable" then
        Raise (OtherError "connection refused")
      else if String.eqb url "https://example.com/blocked" then
        Ok (403, false, "", "Forbidden")
      else if String.eqb url "https://example.com/garbled" then
        Ok (200, true, "<html>", "<html>")
      else if String.eqb url "https://example.com/bad-reference" then
        Ok (200, true, "{bad reference}", "{bad reference}")
      else client_get Scenario.libs api_key url;
  json_loads :=
    fun body =>
      if String.eqb body "<html>" then
        Raise (ValueError "Expecting value: line 1 column 1 (char 0)")
      else if String.eqb body "{bad reference}" then Ok extraction_with_bad_reference
      else json_loads Scenario.libs body;
  urljoin :=
    fun base reference =>
      if String.eqb reference bad_reference then Raise (ValueError "Invalid IPv6 URL")
      else urljoin Scenario.libs base reference
|}.

End Cases.

(** ** Checks of the library models *)

(** The test suite of RFC 1321. *)
Example md5_rfc1321 :
  MD5.hexdigest "" = "d41d8cd98f00b204e9800998ecf8427e" /\
  MD5.hexdigest "a" = "0cc175b9c0f1b6a831c399e269772661" /\
  MD5.hexdigest "abc" = "900150983cd24fb0d6963f7d28e17f72" /\
  MD5.hexdigest "message digest" = "f96b697d7cb7938d525a2f31aaf161d0" /\
  MD5.hexdigest "abcdefghijklmnopqrstuvwxyz" = "c3fcd3d76192e4007dfb496cca67e13b".
Proof. vm_compute. repeat split. Qed.

(** [float] on literals: integers, fractions (0.1 is 0x1.999999999999ap-4),
    exponents, rounding to even, overflow, underscores, and malformed
    texts. *)
Example float_literals :
  PyFloat.of_string "300" = Some Scenario.float_300 /\
  PyFloat.of_string " -5 " = Some Scenario.float_minus_5 /\
  PyFloat.of_string "0.1" = Some (S754_finite false 7205759403792794 (-56)) /\
  PyFloat.of_string "1e-320" = Some (S754_finite false 2024 (-1074)) /\
  PyFloat.of_string "9007199254740993" = Some (S754_finite false 4503599627370496 1) /\
  PyFloat.of_string "1e400" = Some (S754_infinity false) /\
  PyFloat.of_string "-0" = Some (S754_zero true) /\
  PyFloat.of_string "1_000.5" = Some (S754_finite false 8800491068719104 (-43)) /\
  PyFloat.of_string "-Infinity" = Some (S754_infinity true) /\
  PyFloat.of_string "NaN" = Some S754_nan /\
  PyFloat.of_string "1__0" = None /\
  PyFloat.of_string "." = None /\
  PyFloat.of_string "auto" = None.
Proof. vm_compute. repeat split. Qed.

Example strip_unit_examples :
  strip_unit "100px" = "100" /\
  strip_unit " 2.5em " = "2.5" /\
  strip_unit "50%" = "50" /\
  strip_unit "px" = "0" /\
  strip_unit "" = "0".
Proof. vm_compute. repeat split. Qed.

Example path_join_examples :
  path_join "out" "a.svg" = "out/a.svg" /\
  path_join "out/" "a.svg" = "out/a.svg" /\
  path_join "" "a.svg" = "a.svg".
Proof. vm_compute. repeat split. Qed.

(** Texts with and without a UTF-8 encoding: ASCII, a two-byte and a
    four-byte character; a surrogate in three bytes, an overlong form and
    a sequence cut short. *)
Example utf8_examples :
  let bytes := fold_right (fun n s => String (ascii_of_nat n) s) EmptyString in
  PyStr.utf8 "https://example.com/logo.svg" = true /\
  PyStr.utf8 (bytes [99; 97; 102; 195; 169]%nat) = true /\
  PyStr.utf8 (bytes [240; 159; 150; 188]%nat) = true /\
  PyStr.utf8 (bytes [237; 178; 128]%nat) = false /\
  PyStr.utf8 (bytes [192; 128]%nat) = false /\
  PyStr.utf8 (bytes [226; 130]%nat) = false.
Proof. cbv zeta. repeat split; reflexivity. Qed.

(** [float] skips the blanks of C on both sides of a literal, and not
    the separators 0x1c-0x1f that [str.strip()] removes. *)
Example float_blanks :
  let bytes := fold_right (fun n s => String (ascii_of_nat n) s) EmptyString in
  PyFloat.of_string (bytes [9; 32; 53; 10]%nat) = PyFloat.of_string "5" /\
  PyFloat.of_string "5" <> None /\
  PyFloat.of_string (bytes [28; 53]%nat) = None /\
  PyStr.strip (bytes [28; 53; 31]%nat) = "5".
Proof. cbv zeta. repeat split; try reflexivity. vm_compute. discriminate. Qed.

(** ** State-independent computations *)

Create HintDb uniform.

Lemma world_eta (w : world) : World (files w) (dirs w) (stdout w) = w.
Proof. destruct w; reflexivity. Qed.

Lemma effect_ret {A} (a : A) : effect_of (ret a) (Ok a) ∅ [].
Proof.
  intros w. unfold ret. rewrite (left_id_L ∅ (∪)), app_nil_r, world_eta. reflexivity.
Qed.

Lemma effect_call {A} (r : result A) : effect_of (call r) r ∅ [].
Proof.
  intros w. unfold call. rewrite (left_id_L ∅ (∪)), app_nil_r, world_eta. reflexivity.
Qed.

Lemma effect_raise {A} (e : exn) : effect_of (@raise A e) (Raise e) ∅ [].
Proof. apply (effect_call (Raise e)). Qed.

Lemma effect_print (l : line) : effect_of (print l) (Ok tt) ∅ [l].
Proof. intros w. unfold print. rewrite (left_id_L ∅ (∪)). reflexivity. Qed.

Lemma effect_write_ok L path data :
  open_error L path = None ->
  effect_of (write_file L path data) (Ok tt) {[path := data]} [].
Proof.
  intros H w. unfold write_file. rewrite H, app_nil_r, insert_union_singleton_l. reflexivity.
Qed.

Lemma effect_write_fail L path data e :
  open_error L path = Some e ->
  effect_of (write_file L path data) (Raise e) ∅ [].
Proof.
  intros H w. unfold write_file.
  rewrite H, (left_id_L ∅ (∪)), app_nil_r, world_eta. reflexivity.
Qed.

Lemma effect_bind_ok {A B} (m : M A) (k : A -> M B) a D1 out1 r D2 out2 :
  effect_of m (Ok a) D1 out1 ->
  effect_of (k a) r D2 out2 ->
  effect_of (bind m k) r (D2 ∪ D1) (out1 ++ out2).
Proof.
  intros Hm Hk w. unfold bind. rewrite Hm, Hk. cbn.
  rewrite (assoc_L (∪)), app_assoc. reflexivity.
Qed.

Lemma effect_bind_raise {A B} (m : M A) (k : A -> M B) e D out :
  effect_of m (Raise e) D out ->
  effect_of (bind m k) (Raise e) D out.
Proof. intros Hm w. unfold bind. rewrite Hm. reflexivity. Qed.

Lemma effect_try_ok {A} (body : M A) handler a D out :
  effect_of body (Ok a) D out ->
  effect_of (try_except body handler) (Ok a) D out.
Proof. intros Hb w. unfold try_except. rewrite Hb. reflexivity. Qed.

Lemma effect_try_raise {A} (body : M A) handler e D1 out1 r D2 out2 :
  effect_of body (Raise e) D1 out1 ->
  effect_of (handler e) r D2 out2 ->
  effect_of (try_except body handler) r (D2 ∪ D1) (out1 ++ out2).
Proof.
  intros Hb Hh w. unfold try_except. rewrite Hb, Hh. cbn.
  rewrite (assoc_L (∪)), app_assoc. reflexivity.
Qed.

Lemma uniform_bind {A B} (m : M A) (k : A -> M B) :
  uniform m -> (forall a, uniform (k a)) -> uniform (bind m k).
Proof.
  intros (r & D & out & Hm) Hk. destruct r as [a | e].
  - destruct (Hk a) as (r2 & D2 & out2 & H2).
    exists r2, (D2 ∪ D), (out ++ out2)%list. eapply effect_bind_ok; eauto.
  - exists (Raise e), D, out. apply effect_bind_raise; assumption.
Qed.

Lemma total_try {A} (body : M A) handler :
  uniform body -> (forall e, total (handler e)) -> total (try_except body handler).
Proof.
  intros (r & D & out & Hb) Hh. destruct r as [a | e].
  - exists a, D, out. apply effect_try_ok; assumption.
  - destruct (Hh e) as (a & D2 & out2 & H2).
    exists a, (D2 ∪ D), (out ++ out2)%list. eapply effect_try_raise; eauto.
Qed.

Lemma total_uniform {A} (m : M A) : total m -> uniform m.
Proof. intros (a & D & out & H). exists (Ok a), D, out. exact H. Qed.

Lemma uniform_ret {A} (a : A) : uniform (ret a).
Proof. eexists _, _, _. apply effect_ret. Qed.

Lemma uniform_call {A} (r : result A) : uniform (call r).
Proof. eexists _, _, _. apply effect_call. Qed.

Lemma uniform_raise {A} (e : exn) : uniform (@raise A e).
Proof. eexists _, _, _. apply effect_raise. Qed.

Lemma uniform_print l : uniform (print l).
Proof. eexists _, _, _. apply effect_print. Qed.

Lemma total_print l : total (print l).
Proof. eexists _, _, _. apply effect_print. Qed.

Lemma total_ret {A} (a : A) : total (ret a).
Proof. eexists _, _, _. apply effect_ret. Qed.

Lemma uniform_write_file L path data : uniform (write_file L path data).
Proof.
  destruct (open_error L path) as [e |] eqn:H.
  - eexists _, _, _. apply effect_write_fail; eassumption.
  - eexists _, _, _. apply effect_write_ok; assumption.
Qed.

Lemma uniform_float s : uniform (float s).
Proof. unfold float. destruct (PyFloat.of_string s); [apply uniform_ret | apply uniform_raise]. Qed.

#[local] Hint Resolve uniform_ret uniform_call uniform_raise uniform_print
  uniform_write_file uniform_float total_print total_ret total_uniform : uniform.

Ltac uniform_step :=
  match goal with
  | |- uniform (bind _ _) => apply uniform_bind; [| intros ?]
  | |- uniform (try_except _ _) => apply total_uniform, total_try; [| intros ?]
  | |- total (try_except _ _) => apply total_try; [| intros ?]
  | |- total (bind (print _) _) => idtac
  | |- uniform (if ?b then _ else _) => destruct b
  | |- uniform (let (_, _) := ?p in _) => destruct p
  | |- uniform (match ?x with _ => _ end) => destruct x
  | |- total (match ?x with _ => _ end) => destruct x
  | |- _ => solve [auto with uniform]
  end.

Lemma total_get_svg_size L content : total (get_svg_size L content).
Proof.
  unfold get_svg_size. apply total_try.
  - repeat uniform_step.
  - intros e. destruct (total_print (ErrorSvgSize (exn_str e))) as (a & D & out & H).
    eexists _, _, _. eapply effect_bind_ok; [exact H | apply effect_ret].
Qed.

Lemma total_handle_svg L url content folder min_area :
  total (handle_svg L url content folder min_area).
Proof.
  unfold handle_svg. apply total_try; [| auto with uniform].
  apply uniform_bind; [apply total_uniform, total_get_svg_size |].
  intros [width height]. repeat uniform_step.
Qed.

Lemma total_handle_jpeg_xl L url content folder :
  total (handle_jpeg_xl L url content folder).
Proof.
  unfold handle_jpeg_xl. apply total_try; [| auto with uniform].
  repeat uniform_step.
Qed.

Lemma total_handle_generic_image L url content folder min_area :
  total (handle_generic_image L url content folder min_area).
Proof.
  unfold handle_generic_image. apply total_try.
  - repeat uniform_step.
  - intros []; auto with uniform.
Qed.

Lemma total_download_image L url folder min_area :
  total (download_image L url folder min_area).
Proof.
  unfold download_image. apply total_try; [| auto with uniform].
  apply uniform_bind; [auto with uniform |]. intros r.
  destruct (status_code r =? 200); [| auto with uniform].
  cbv zeta.
  repeat match goal with |- uniform (if ?b then _ else _) => destruct b end;
    apply total_uniform;
    auto using total_handle_svg, total_handle_jpeg_xl, total_handle_generic_image.
Qed.

Lemma total_process_image L folder min_area url :
  total (process_image L folder min_area url).
Proof.
  unfold process_image. apply total_try; [| auto with uniform].
  apply uniform_bind; [auto with uniform |]. intros r.
  match goal with |- uniform (if ?b then _ else _) => destruct b end;
    [| auto with uniform].
  apply uniform_bind; [auto with uniform |]. intros _.
  apply total_uniform, total_download_image.
Qed.

(** ** The SVG classifier *)

(** The classifier always returns a size, writes no file and prints at
    most its error line, the same from every state. *)
Lemma get_svg_size_run L content :
  exists size out, forall w,
    get_svg_size L content w = (Ok size, World (files w) (dirs w) (stdout w ++ out)).
Proof.
  unfold get_svg_size, try_except, bind, call, float, ret, raise, print.
  destruct (et_fromstring L content) as [attrib | e].
  - cbv zeta.
    destruct (PyFloat.of_string (strip_unit (default "0" (attrib !! "width")))) as [x |].
    + destruct (PyFloat.of_string (strip_unit (default "0" (attrib !! "height")))) as [y |].
      * eexists _, []. intros w. rewrite app_nil_r, world_eta. reflexivity.
      * eexists _, [_]. intros w. reflexivity.
    + eexists _, [_]. intros w. reflexivity.
  - eexists _, [_]. intros w. reflexivity.
Qed.

Lemma get_svg_size_at L content w size :
  fst (get_svg_size L content w) = Ok size ->
  exists out, forall w',
    get_svg_size L content w' = (Ok size, World (files w') (dirs w') (stdout w' ++ out)).
Proof.
  destruct (get_svg_size_run L content) as (size' & out & H).
  rewrite H. cbn. intros [= <-]. exists out. exact H.
Qed.

(** A failure of the parser or of a conversion gives the size [(0, 0)]. *)
Lemma get_svg_size_parse_error L content e w :
  et_fromstring L content = Raise e ->
  fst (get_svg_size L content w) = Ok (PyInt 0, PyInt 0).
Proof.
  intros H. unfold get_svg_size, try_except, bind, call. rewrite H. reflexivity.
Qed.

Lemma get_svg_size_zero_dimension L content attrib w :
  et_fromstring L content = Ok attrib ->
  zero_dimension attrib "width" \/ zero_dimension attrib "height" ->
  fst (get_svg_size L content w) = Ok (PyInt 0, PyInt 0).
Proof.
  intros Hparse Hzero.
  unfold get_svg_size, try_except, bind, call, float, ret, raise, print.
  rewrite Hparse. cbv zeta.
  assert (Hdim : forall key,
             zero_dimension attrib key ->
             exists x, PyFloat.of_string (strip_unit (default "0" (attrib !! key))) = Some x
                       /\ PyFloat.truthy x = false).
  { intros key. unfold zero_dimension. destruct (attrib !! key) as [v |]; cbn; [tauto |].
    intros _. exists (S754_zero false). split; reflexivity. }
  destruct Hzero as [Hw | Hh].
  - destruct (Hdim _ Hw) as (x & -> & Hx).
    destruct (PyFloat.of_string (strip_unit (default "0" (attrib !! "height")))); cbn;
      [rewrite Hx |]; reflexivity.
  - destruct (Hdim _ Hh) as (y & Hy & Hty).
    destruct (PyFloat.of_string (strip_unit (default "0" (attrib !! "width")))); cbn;
      [| reflexivity].
    rewrite Hy. cbn. rewrite Hty, andb_false_r. reflexivity.
Qed.

(** ** The handlers, branch by branch *)

Lemma handle_svg_accept L url content folder min_area width height w :
  fst (get_svg_size L content w) = Ok (width, height) ->
  PyNum.ge_int (PyNum.mul width height) min_area = true ->
  open_error L (path_join folder (md5_hash url ++ ".svg")) = None ->
  open_error L (path_join folder (md5_hash url ++ ".json")) = None ->
  files (snd (handle_svg L url content folder min_area w)) =
  persist folder url "svg" content (Metadata url "SVG" (width, height)) (files w).
Proof.
  intros Hsize Hge Himg Hjson.
  destruct (get_svg_size_at _ _ _ _ Hsize) as (out & Hrun).
  unfold handle_svg, try_except, bind. rewrite Hrun, Hge.
  unfold write_file, print. cbn.
  change ("." +:+ "svg") with ".svg".
  rewrite Himg. cbn. rewrite Hjson. reflexivity.
Qed.

Lemma handle_svg_reject L url content folder min_area width height w :
  fst (get_svg_size L content w) = Ok (width, height) ->
  PyNum.ge_int (PyNum.mul width height) min_area = false ->
  files (snd (handle_svg L url content folder min_area w)) = files w.
Proof.
  intros Hsize Hge.
  destruct (get_svg_size_at _ _ _ _ Hsize) as (out & Hrun).
  unfold handle_svg, try_except, bind. rewrite Hrun, Hge. reflexivity.
Qed.

Lemma handle_generic_image_accept L url content folder min_area img width height w :
  image_open L content = Ok img ->
  pil_size img = (width, height) ->
  PyNum.ge_int (PyNum.mul (PyInt width) (PyInt height)) min_area = true ->
  open_error L (path_join folder (md5_hash url ++ "." ++ PyStr.lower (pil_format img))) = None ->
  open_error L (path_join folder (md5_hash url ++ ".json")) = None ->
  files (snd (handle_generic_image L url content folder min_area w)) =
  persist folder url (PyStr.lower (pil_format img)) content
    (Metadata url (pil_format img) (PyInt width, PyInt height)) (files w).
Proof.
  intros Hopen Hsize Hge Himg Hjson.
  unfold handle_generic_image, try_except, bind, call. rewrite Hopen, Hsize, Hge.
  unfold write_file, print. cbn. rewrite Himg. cbn. rewrite Hjson. reflexivity.
Qed.

Lemma handle_generic_image_reject L url content folder min_area img width height w :
  image_open L content = Ok img ->
  pil_size img = (width, height) ->
  PyNum.ge_int (PyNum.mul (PyInt width) (PyInt height)) min_area = false ->
  files (snd (handle_generic_image L url content folder min_area w)) = files w.
Proof.
  intros Hopen Hsize Hge.
  unfold handle_generic_image, try_except, bind, call. rewrite Hopen, Hsize, Hge.
  reflexivity.
Qed.

Lemma handle_generic_image_undecodable L url content folder min_area e w :
  image_open L content = Raise e ->
  files (snd (handle_generic_image L url content folder min_area w)) = files w.
Proof.
  intros Hopen.
  unfold handle_generic_image, try_except, bind, call. rewrite Hopen.
  destruct e; reflexivity.
Qed.

(** ** The comparison [area >= min_area] *)

Lemma ge_int_of_eq a z : PyNum.eq_int a z = true -> PyNum.ge_int a z = true.
Proof.
  unfold PyNum.eq_int, PyNum.ge_int.
  destruct (PyNum.compare_int a z) as [[] |]; congruence.
Qed.

Lemma Zcompare_mono x z z' :
  (x ?= z) <> Gt -> z < z' -> (x ?= z') = Lt.
Proof.
  intros Hc Hlt. apply Z.compare_lt_iff.
  destruct (Z.compare_spec x z); [lia | lia | congruence].
Qed.

Lemma compare_int_mono a z z' c :
  PyNum.compare_int a z = Some c -> c <> Gt -> z < z' ->
  PyNum.compare_int a z' = Some Lt.
Proof.
  intros Hc Hgt Hlt.
  destruct a as [x | [s | [] | | s m e]];
    unfold PyNum.compare_int, PyFloat.compare_int in *;
    try congruence; injection Hc as <-; f_equal.
  - eapply Zcompare_mono; eassumption.
  - eapply Zcompare_mono; eassumption.
  - destruct (Z.leb_spec 0 e).
    + eapply Zcompare_mono; eassumption.
    + assert (0 < 2 ^ (- e)) by (apply Z.pow_pos_nonneg; lia).
      eapply Zcompare_mono; [eassumption | nia].
Qed.

Lemma ge_int_below a z : PyNum.eq_int a (z - 1) = true -> PyNum.ge_int a z = false.
Proof.
  unfold PyNum.eq_int, PyNum.ge_int. intros H.
  destruct (PyNum.compare_int a (z - 1)) as [[] |] eqn:Hc; try discriminate.
  rewrite (compare_int_mono _ _ z _ Hc); [reflexivity | discriminate | lia].
Qed.

Lemma ge_int_zero_area a z : PyNum.eq_int a 0 = true -> 0 < z -> PyNum.ge_int a z = false.
Proof.
  unfold PyNum.eq_int, PyNum.ge_int. intros H Hz.
  destruct (PyNum.compare_int a 0) as [[] |] eqn:Hc; try discriminate.
  rewrite (compare_int_mono _ _ z _ Hc); [reflexivity | discriminate | lia].
Qed.

(** ** Consequences of uniformity *)

Lemma total_never_raises {A} (m : M A) :
  total m -> forall w, exists a, fst (m w) = Ok a.
Proof. intros (a & D & out & H) w. exists a. rewrite H. reflexivity. Qed.

Lemma total_unit_ok (m : M unit) : total m -> forall w, fst (m w) = Ok tt.
Proof. intros H w. destruct (total_never_raises m H w) as ([] & ->). reflexivity. Qed.

Lemma total_try_passes {A} (m : M A) handler :
  total m -> forall w, try_except m handler w = m w.
Proof.
  intros (a & D & out & H) w. unfold try_except. rewrite H. reflexivity.
Qed.

Lemma total_idempotent {A} (m : M A) :
  total m -> forall w,
    files (snd (m (snd (m w)))) = files (snd (m w)) /\
    dirs (snd (m (snd (m w)))) = dirs (snd (m w)).
Proof.
  intros (a & D & out & H) w. rewrite !H. cbn. split; [| reflexivity].
  rewrite (assoc_L (∪)), (idemp_L (∪)). reflexivity.
Qed.




Lemma total_for_each {A} (body : A -> M unit) xs :
  (forall x, total (body x)) -> total (for_each xs body).
Proof.
  intros Hbody. induction xs as [| x xs IH]; cbn [for_each]; [auto with uniform |].
  destruct (Hbody x) as ([] & D1 & out1 & H1).
  destruct IH as ([] & D2 & out2 & H2).
  eexists _, _, _. eapply effect_bind_ok; [exact H1 | exact H2].
Qed.

(** ** The fingerprint *)

Lemma hexchar_is_hex n : 0 <= n < 16 -> is_hex_digit (MD5.hexchar n) = true.
Proof.
  intros H. rewrite <- (Z2Nat.id n) by lia.
  assert (Hk : (Z.to_nat n < 16)%nat) by lia.
  remember (Z.to_nat n) as k eqn:Ek. clear Ek H.
  do 16 (destruct k as [| k]; [reflexivity |]). lia.
Qed.

Lemma hex_length bs : String.length (MD5.hex bs) = (2 * List.length bs)%nat.
Proof. induction bs as [| b bs IH]; cbn; [reflexivity | rewrite IH; lia]. Qed.

Lemma hex_all_hex bs :
  Forall (fun b => 0 <= b < 256) bs -> all_hex (MD5.hex bs) = true.
Proof.
  induction 1 as [| b bs Hb _ IH]; [reflexivity |].
  cbn [MD5.hex all_hex]. rewrite IH, !hexchar_is_hex; [reflexivity | |].
  - apply Z.mod_pos_bound. lia.
  - split; [apply Z.div_pos; lia | apply Z.div_lt_upper_bound; lia].
Qed.

Lemma le_bytes_range n z : Forall (fun b => 0 <= b < 256) (MD5.le_bytes n z).
Proof.
  unfold MD5.le_bytes. apply Forall_map, Forall_forall. intros i _. cbn beta.
  change 255 with (Z.ones 8). rewrite Z.land_ones by lia.
  apply Z.mod_pos_bound. lia.
Qed.

Lemma digest_length msg : List.length (MD5.digest msg) = 16%nat.
Proof. unfold MD5.digest. destruct (MD5.digest_state msg). reflexivity. Qed.

Lemma digest_range msg : Forall (fun b => 0 <= b < 256) (MD5.digest msg).
Proof.
  unfold MD5.digest. destruct (MD5.digest_state msg).
  repeat apply Forall_app_2; apply le_bytes_range.
Qed.

Ltac fingerprint_names :=
  let p := fresh "p" in
  intros p; cbn;
  repeat (rewrite lookup_insert; case_decide;
          [ intros _; right;
            match goal with
            | Hp : _ = p |- _ =>
                first [ exists "json"; symmetry; exact Hp
                      | eexists; symmetry; exact Hp ]
            end |]);
  auto.

Lemma handle_svg_names L url content folder min_area w :
  fingerprint_named folder url w (snd (handle_svg L url content folder min_area w)).
Proof.
  destruct (get_svg_size_run L content) as ([width height] & out & Hrun).
  unfold handle_svg, try_except, bind. rewrite Hrun.
  destruct (PyNum.ge_int _ _); [| fingerprint_names].
  unfold write_file, print. cbn.
  destruct (open_error L _); [fingerprint_names |]. cbn.
  destruct (open_error L _); fingerprint_names.
Qed.

Lemma handle_jpeg_xl_names L url content folder w :
  fingerprint_named folder url w (snd (handle_jpeg_xl L url content folder w)).
Proof.
  unfold handle_jpeg_xl, try_except, bind, write_file, call, print. cbn.
  destruct (open_error L _); [fingerprint_names |].
  destruct (pyjxl_decode L content) as [[width height] | e]; [| fingerprint_names]. cbn.
  destruct (open_error L _); fingerprint_names.
Qed.

Lemma handle_generic_image_names L url content folder min_area w :
  fingerprint_named folder url w (snd (handle_generic_image L url content folder min_area w)).
Proof.
  unfold handle_generic_image, try_except, bind, call.
  destruct (image_open L content) as [[[width height] format] | e];
    [| destruct e; fingerprint_names].
  cbn [pil_size pil_format]. destruct (PyNum.ge_int _ _); [| fingerprint_names].
  unfold write_file, print. cbn.
  destruct (open_error L _) as [e |]; [destruct e; fingerprint_names |]. cbn.
  destruct (open_error L _) as [e |]; [destruct e |]; fingerprint_names.
Qed.

(** The dispatcher hands a successful response to one handler, chosen by
    the declared content type alone. *)
Lemma download_image_dispatch L url folder min_area r w :
  requests_get L url = Ok r ->
  status_code r = 200 ->
  download_image L url folder min_area w =
    let content_type := default "" (headers r !! "Content-Type") in
    if PyStr.contains "image/svg+xml" content_type then
      handle_svg L url (content r) folder min_area w
    else if PyStr.contains "image/jxl" content_type then
      handle_jpeg_xl L url (content r) folder w
    else
      handle_generic_image L url (content r) folder min_area w.
Proof.
  intros Hget Hstatus. unfold download_image.
  set (handler := fun e : exn => print (ErrorDownloading url (exn_str e))).
  transitivity
    (try_except
       (let content_type := default "" (headers r !! "Content-Type") in
        if PyStr.contains "image/svg+xml" content_type then
          handle_svg L url (content r) folder min_area
        else if PyStr.contains "image/jxl" content_type then
          handle_jpeg_xl L url (content r) folder
        else handle_generic_image L url (content r) folder min_area)
       handler w).
  - unfold try_except, bind, call. rewrite Hget, Hstatus. reflexivity.
  - cbv zeta.
    destruct (PyStr.contains "image/svg+xml" _);
      [| destruct (PyStr.contains "image/jxl" _)];
      apply total_try_passes;
      auto using total_handle_svg, total_handle_jpeg_xl, total_handle_generic_image.
Qed.

Lemma download_image_names L url folder min_area w :
  fingerprint_named folder url w (snd (download_image L url folder min_area w)).
Proof.
  destruct (requests_get L url) as [r | e] eqn:Hget.
  - destruct (Z.eq_dec (status_code r) 200) as [Hstatus | Hstatus].
    + rewrite (download_image_dispatch _ _ _ _ _ _ Hget Hstatus). cbv zeta.
      destruct (PyStr.contains "image/svg+xml" _);
        [| destruct (PyStr.contains "image/jxl" _)];
        auto using handle_svg_names, handle_jpeg_xl_names, handle_generic_image_names.
    + unfold download_image, try_except, bind, call. rewrite Hget.
      apply Z.eqb_neq in Hstatus. rewrite Hstatus. fingerprint_names.
  - unfold download_image, try_except, bind, call. rewrite Hget. fingerprint_names.
Qed.

Lemma md5_hash_length url : String.length (md5_hash url) = 32%nat.
Proof. unfold md5_hash, MD5.hexdigest. rewrite hex_length, digest_length. reflexivity. Qed.

Lemma md5_hash_first_char url :
  exists c rest, md5_hash url = String c rest /\ Ascii.eqb "/" c = false.
Proof.
  pose proof (md5_hash_length url) as Hlen.
  assert (Hhex : all_hex (md5_hash url) = true)
    by (unfold md5_hash, MD5.hexdigest; apply hex_all_hex, digest_range).
  destruct (md5_hash url) as [| c rest]; [discriminate Hlen |].
  exists c, rest. split; [reflexivity |].
  cbn [all_hex] in Hhex. apply andb_prop in Hhex as [Hc _].
  destruct (Ascii.eqb_spec "/" c) as [<- |]; [discriminate Hc | reflexivity].
Qed.

(** The paths of two fingerprint names of one URL in one folder are equal
    only if the extensions are. *)
Lemma path_join_extension_inj folder url e1 e2 :
  path_join folder (md5_hash url ++ "." ++ e1) =
  path_join folder (md5_hash url ++ "." ++ e2) ->
  e1 = e2.
Proof.
  destruct (md5_hash_first_char url) as (c & rest & -> & Hc).
  unfold path_join.
  change (String c rest ++ "." ++ e1) with (String c (rest ++ "." ++ e1)).
  change (String c rest ++ "." ++ e2) with (String c (rest ++ "." ++ e2)).
  cbn [PyStr.startswith]. rewrite Hc.
  assert (Hinj : forall p, p ++ String c (rest ++ "." ++ e1)
                           = p ++ String c (rest ++ "." ++ e2) -> e1 = e2).
  { intros p H. apply String.app_inj in H. injection H as H.
    apply String.app_inj in H. injection H as H. exact H. }
  destruct (String.eqb folder ""); [apply (Hinj "") |].
  destruct (PyStr.endswith_char folder "/"); [apply Hinj |].
  intros H. apply String.app_inj in H. apply (Hinj "/"). exact H.
Qed.

(** ** The failures of one candidate *)


Lemma download_image_route L url folder min_area r w :
  requests_get L url = Ok r ->
  status_code r = 200 ->
  download_image L url folder min_area w = handler_of L url folder min_area r w.
Proof.
  intros Hget Hstatus. rewrite (download_image_dispatch _ _ _ _ _ _ Hget Hstatus).
  unfold handler_of, route_of. cbv zeta.
  destruct (PyStr.contains "image/svg+xml" _); [reflexivity |].
  destruct (PyStr.contains "image/jxl" _); reflexivity.
Qed.






(** ** Storing in place *)

Lemma insert_twice_same (image sidecar : string) (a b : file) (fs : gmap string file) :
  <[sidecar := b]> (<[image := a]> (<[sidecar := b]> (<[image := a]> fs)))
  = <[sidecar := b]> (<[image := a]> fs).
Proof.
  apply map_eq. intros p.
  destruct (decide (p = sidecar)) as [-> | Hs]; [rewrite !lookup_insert_eq; reflexivity |].
  rewrite !(lookup_insert_ne _ sidecar) by congruence.
  destruct (decide (p = image)) as [-> | Hi]; [rewrite !lookup_insert_eq; reflexivity |].
  rewrite !(lookup_insert_ne _ image) by congruence.
  rewrite !(lookup_insert_ne _ sidecar) by congruence.
  rewrite !(lookup_insert_ne _ image) by congruence. reflexivity.
Qed.

(** A handler that, from every state, writes the image and then its
    sidecar and prints [lines] stores in place. *)
Lemma stored_in_place_intro folder url extension content m lines (run : M unit) :
  (forall w, run w = (Ok tt, World (persist folder url extension content m (files w))
                               (dirs w) (stdout w ++ lines))) ->
  forall w, stored_in_place folder url extension content m lines run w.
Proof.
  intros Hrun w. unfold stored_in_place. cbv zeta. rewrite !Hrun. cbn [fst snd files stdout].
  unfold persist.
  set (image := path_join folder (md5_hash url ++ "." ++ extension)).
  set (sidecar := path_join folder (md5_hash url ++ ".json")).
  rewrite insert_twice_same.
  split; [auto |]. split; [auto |]. split; [reflexivity |]. split; [split |].
  - intros Hext. rewrite lookup_insert_ne, lookup_insert_eq; [reflexivity |].
    intros Heq. apply Hext. symmetry.
    apply (path_join_extension_inj folder url "json" extension). exact Heq.
  - apply lookup_insert_eq.
  - split; [| auto]. rewrite !dom_insert_L, (assoc_L (∪)), (comm_L (∪) {[sidecar]}).
    reflexivity.
Qed.

Lemma handle_svg_stores L url content folder min_area width height out :
  (forall w, get_svg_size L content w
             = (Ok (width, height), World (files w) (dirs w) (stdout w ++ out))) ->
  PyNum.ge_int (PyNum.mul width height) min_area = true ->
  open_error L (path_join folder (md5_hash url ++ ".svg")) = None ->
  open_error L (path_join folder (md5_hash url ++ ".json")) = None ->
  forall w,
    handle_svg L url content folder min_area w =
    (Ok tt, World (persist folder url "svg" content (Metadata url "SVG" (width, height))
                     (files w))
              (dirs w)
              (stdout w ++ out ++
               [Downloaded (path_join folder (md5_hash url ++ ".svg")) width height "SVG";
                MetadataSaved (path_join folder (md5_hash url ++ ".json"))])).
Proof.
  intros Hsize Hge Himg Hjson w.
  unfold handle_svg, try_except, bind. rewrite Hsize, Hge.
  unfold write_file, print. cbn [fst snd files dirs stdout].
  change ("." +:+ "svg") with ".svg".
  rewrite Himg. cbn [fst snd files dirs stdout]. rewrite Hjson. cbn [fst snd files dirs stdout].
  rewrite <- !app_assoc. reflexivity.
Qed.

Lemma handle_jpeg_xl_stores L url content folder width height :
  open_error L (path_join folder (md5_hash url ++ ".jxl")) = None ->
  pyjxl_decode L content = Ok (width, height) ->
  open_error L (path_join folder (md5_hash url ++ ".json")) = None ->
  forall w,
    handle_jpeg_xl L url content folder w =
    (Ok tt, World (persist folder url "jxl" content
                     (Metadata url "JPEG XL" (PyInt width, PyInt height)) (files w))
              (dirs w)
              (stdout w ++
               [Downloaded (path_join folder (md5_hash url ++ ".jxl"))
                  (PyInt width) (PyInt height) "JPEG XL";
                MetadataSaved (path_join folder (md5_hash url ++ ".json"))])).
Proof.
  intros Himg Hdecode Hjson w.
  unfold handle_jpeg_xl, try_except, bind, write_file, call, print.
  change ("." +:+ "jxl") with ".jxl". rewrite Himg, Hdecode.
  cbn [fst snd files dirs stdout]. rewrite Hjson. cbn [fst snd files dirs stdout].
  rewrite <- !app_assoc. reflexivity.
Qed.

Lemma handle_generic_image_stores L url content folder min_area img width height :
  image_open L content = Ok img ->
  pil_size img = (width, height) ->
  PyNum.ge_int (PyNum.mul (PyInt width) (PyInt height)) min_area = true ->
  open_error L (path_join folder (md5_hash url ++ "." ++ PyStr.lower (pil_format img))) = None ->
  open_error L (path_join folder (md5_hash url ++ ".json")) = None ->
  forall w,
    handle_generic_image L url content folder min_area w =
    (Ok tt, World (persist folder url (PyStr.lower (pil_format img)) content
                     (Metadata url (pil_format img) (PyInt width, PyInt height)) (files w))
              (dirs w)
              (stdout w ++
               [Downloaded
                  (path_join folder (md5_hash url ++ "." ++ PyStr.lower (pil_format img)))
                  (PyInt width) (PyInt height) (pil_format img);
                MetadataSaved (path_join folder (md5_hash url ++ ".json"))])).
Proof.
  intros Hopen Hsize Hge Himg Hjson w.
  unfold handle_generic_image, try_except, bind, call. rewrite Hopen, Hsize, Hge.
  unfold write_file, print. cbn [fst snd files dirs stdout]. rewrite Himg.
  cbn [fst snd files dirs stdout]. rewrite Hjson. cbn [fst snd files dirs stdout].
  rewrite <- !app_assoc. reflexivity.
Qed.

(** ** The claims *)

(** *** The JPEG XL path *)

(** C1 (the code departs from the claim): on the JPEG XL path no size
    filter is applied.  A 10x10 picture, of area 100, fetched with
    [min_area = 50000] is stored with its metadata sidecar, although
    [100 >= 50000] is false. *)
Theorem jpeg_xl_path_applies_no_size_filter :
  let url := "https://example.com/tiny.jxl" in
  let w := snd (download_image Scenario.libs url "out" 50000 Scenario.start) in
  pyjxl_decode Scenario.libs Scenario.jxl_10x10 = Ok (10, 10) /\
  PyNum.ge_int (PyNum.mul (PyInt 10) (PyInt 10)) 50000 = false /\
  files w !! "out/e0e3c957ea1ac83213d7e4229ab93991.jxl"
    = Some (ImageBytes Scenario.jxl_10x10) /\
  files w !! "out/e0e3c957ea1ac83213d7e4229ab93991.json"
    = Some (MetadataJson (Metadata url "JPEG XL" (PyInt 10, PyInt 10))).
Proof. vm_compute. repeat split. Qed.

(** C2 (the code departs from the claim): on the JPEG XL path the payload
    is written before it is decoded.  When decoding fails the error is
    printed and no sidecar is written, but the undecodable payload stays
    in the output directory. *)
Theorem jpeg_xl_decode_failure_leaves_payload :
  let url := "https://example.com/broken.jxl" in
  let run := download_image Scenario.libs url "out" 50000 Scenario.start in
  pyjxl_decode Scenario.libs Scenario.garbage = Raise (OtherError "decoding failed") /\
  fst run = Ok tt /\
  stdout (snd run) = [ErrorJpegXl url "decoding failed"] /\
  Scenario.listing (snd run)
    = [("out/8d1769fee08061afb2d4c06236ae32d4.jxl", ImageBytes Scenario.garbage)].
Proof. vm_compute. repeat split. Qed.

(** *** The SVG classifier and the size filter *)

(** C3, as stated, fails: the root element of [<svg width='-5'
    height='-3'>] has a non-positive width and a non-positive height, yet
    the classifier reports the size (-5.0, -3.0), of area 15 and not 0,
    and with [min_area = 10], which is not zero, the image is stored. *)
Lemma svg_negative_dimensions_have_nonzero_area :
  let url := "https://example.com/flip.svg" in
  let attrib : gmap string string := list_to_map [("width", "-5"); ("height", "-3")] in
  let w := snd (handle_svg Scenario.libs url Scenario.svg_negative "out" 10 Scenario.start) in
  et_fromstring Scenario.libs Scenario.svg_negative = Ok attrib /\
  nonpositive_dimension attrib "width" /\
  nonpositive_dimension attrib "height" /\
  (exists width height,
      fst (get_svg_size Scenario.libs Scenario.svg_negative Scenario.start) = Ok (width, height) /\
      PyNum.eq_int (PyNum.mul width height) 0 = false /\
      PyNum.eq_int (PyNum.mul width height) 15 = true) /\
  files w !! "out/64d3adc7331e5e1a399cb6e8a5a3b82d.svg"
    = Some (ImageBytes Scenario.svg_negative) /\
  is_Some (files w !! "out/64d3adc7331e5e1a399cb6e8a5a3b82d.json").
Proof.
  cbv zeta. split; [reflexivity |].
  split; [eexists _, Lt; vm_compute; repeat split; discriminate |].
  split; [eexists _, Lt; vm_compute; repeat split; discriminate |].
  split.
  { exists (PyFloat Scenario.float_minus_5), (PyFloat Scenario.float_minus_3).
    vm_compute. repeat split. }
  split; [vm_compute; reflexivity |].
  exists (MetadataJson
            (Metadata "https://example.com/flip.svg" "SVG"
               (PyFloat Scenario.float_minus_5, PyFloat Scenario.float_minus_3))).
  vm_compute. reflexivity.
Qed.

(** C3, amended: when the width or the height attribute of the root
    element is missing, or its text converts to zero, the classifier
    reports the size (0, 0), of area zero; under a non-negative threshold
    the image is then stored only when the threshold is zero: a positive
    threshold leaves the files as they were, the threshold zero stores
    the image and its sidecar. *)
Theorem svg_missing_or_zero_dimension_has_area_zero
    L url content folder min_area attrib w :
  et_fromstring L content = Ok attrib ->
  zero_dimension attrib "width" \/ zero_dimension attrib "height" ->
  fst (get_svg_size L content w) = Ok (PyInt 0, PyInt 0) /\
  PyNum.eq_int (PyNum.mul (PyInt 0) (PyInt 0)) 0 = true /\
  (0 < min_area ->
   files (snd (handle_svg L url content folder min_area w)) = files w) /\
  (min_area = 0 ->
   open_error L (path_join folder (md5_hash url ++ ".svg")) = None ->
   open_error L (path_join folder (md5_hash url ++ ".json")) = None ->
   files (snd (handle_svg L url content folder min_area w)) =
   persist folder url "svg" content (Metadata url "SVG" (PyInt 0, PyInt 0)) (files w)).
Proof.
  intros Hparse Hzero.
  pose proof (get_svg_size_zero_dimension L content attrib w Hparse Hzero) as Hsize.
  split; [exact Hsize |]. split; [reflexivity |]. split.
  - intros Hpos. eapply handle_svg_reject; [exact Hsize |].
    apply ge_int_zero_area; [reflexivity | exact Hpos].
  - intros -> Himg Hjson. eapply handle_svg_accept; eauto.
Qed.

Lemma svg_missing_or_zero_dimension_witness :
  let url := "https://example.com/plain.svg" in
  fst (get_svg_size Scenario.libs Scenario.svg_unsized Scenario.start) = Ok (PyInt 0, PyInt 0) /\
  files (snd (handle_svg Scenario.libs url Scenario.svg_unsized "out" 50000 Scenario.start))
    = files Scenario.start /\
  files (snd (handle_svg Scenario.libs url Scenario.svg_unsized "out" 0 Scenario.start))
    = persist "out" url "svg" Scenario.svg_unsized
        (Metadata url "SVG" (PyInt 0, PyInt 0)) (files Scenario.start).
Proof.
  cbv zeta.
  assert (Hparse : et_fromstring Scenario.libs Scenario.svg_unsized = Ok ∅) by reflexivity.
  assert (Hzero : zero_dimension (∅ : gmap string string) "width"
                  \/ zero_dimension (∅ : gmap string string) "height")
    by (left; exact I).
  split; [| split].
  - exact (proj1 (svg_missing_or_zero_dimension_has_area_zero
                    Scenario.libs "https://example.com/plain.svg" Scenario.svg_unsized
                    "out" 50000 ∅ Scenario.start Hparse Hzero)).
  - refine (proj1 (proj2 (proj2 (svg_missing_or_zero_dimension_has_area_zero
                    Scenario.libs "https://example.com/plain.svg" Scenario.svg_unsized
                    "out" 50000 ∅ Scenario.start Hparse Hzero))) _).
    lia.
  - exact (proj2 (proj2 (proj2 (svg_missing_or_zero_dimension_has_area_zero
                    Scenario.libs "https://example.com/plain.svg" Scenario.svg_unsized
                    "out" 0 ∅ Scenario.start Hparse Hzero))) eq_refl eq_refl eq_refl).
Defined.

(** C4: the size filter is inclusive at the boundary on the vector path
    and on the generic path: a candidate whose area [width * height]
    equals [min_area] is stored with its sidecar, and one whose area
    equals [min_area - 1] leaves the files as they were. *)
Theorem size_filter_inclusive_at_boundary L url content folder min_area w :
  (forall width height,
      fst (get_svg_size L content w) = Ok (width, height) ->
      (PyNum.eq_int (PyNum.mul width height) min_area = true ->
       open_error L (path_join folder (md5_hash url ++ ".svg")) = None ->
       open_error L (path_join folder (md5_hash url ++ ".json")) = None ->
       files (snd (handle_svg L url content folder min_area w)) =
       persist folder url "svg" content (Metadata url "SVG" (width, height)) (files w)) /\
      (PyNum.eq_int (PyNum.mul width height) (min_area - 1) = true ->
       files (snd (handle_svg L url content folder min_area w)) = files w)) /\
  (forall img width height,
      image_open L content = Ok img ->
      pil_size img = (width, height) ->
      (width * height = min_area ->
       open_error L (path_join folder
                       (md5_hash url ++ "." ++ PyStr.lower (pil_format img))) = None ->
       open_error L (path_join folder (md5_hash url ++ ".json")) = None ->
       files (snd (handle_generic_image L url content folder min_area w)) =
       persist folder url (PyStr.lower (pil_format img)) content
         (Metadata url (pil_format img) (PyInt width, PyInt height)) (files w)) /\
      (width * height = min_area - 1 ->
       files (snd (handle_generic_image L url content folder min_area w)) = files w)).
Proof.
  split.
  - intros width height Hsize. split.
    + intros Heq Himg Hjson.
      apply handle_svg_accept; auto using ge_int_of_eq.
    + intros Heq. eapply handle_svg_reject; eauto using ge_int_below.
  - intros img width height Hopen Hsize. split.
    + intros Heq Himg Hjson.
      apply handle_generic_image_accept; auto.
      apply ge_int_of_eq. unfold PyNum.eq_int. cbn. rewrite Heq, Z.compare_refl. reflexivity.
    + intros Heq. eapply handle_generic_image_reject; eauto.
      apply ge_int_below. unfold PyNum.eq_int. cbn. rewrite Heq, Z.compare_refl. reflexivity.
Qed.

Lemma size_filter_inclusive_at_boundary_witness :
  let svg := "https://example.com/logo.svg" in
  let png := "https://example.com/boundary.png" in
  let size := (PyFloat Scenario.float_300, PyFloat Scenario.float_200) in
  files (snd (handle_svg Scenario.libs svg Scenario.svg_300x200 "out" 60000 Scenario.start))
    = persist "out" svg "svg" Scenario.svg_300x200 (Metadata svg "SVG" size)
        (files Scenario.start) /\
  files (snd (handle_svg Scenario.libs svg Scenario.svg_300x200 "out" 60001 Scenario.start))
    = files Scenario.start /\
  files (snd (handle_generic_image Scenario.libs png Scenario.png_250x200 "out" 50000
                Scenario.start))
    = persist "out" png "png" Scenario.png_250x200
        (Metadata png "PNG" (PyInt 250, PyInt 200)) (files Scenario.start) /\
  files (snd (handle_generic_image Scenario.libs png Scenario.png_250x200 "out" 50001
                Scenario.start))
    = files Scenario.start.
Proof.
  cbv zeta.
  assert (Hsize : fst (get_svg_size Scenario.libs Scenario.svg_300x200 Scenario.start)
                  = Ok (PyFloat Scenario.float_300, PyFloat Scenario.float_200))
    by (vm_compute; reflexivity).
  split; [| split; [| split]].
  - apply (proj1 (proj1 (size_filter_inclusive_at_boundary
              Scenario.libs "https://example.com/logo.svg" Scenario.svg_300x200 "out" 60000
              Scenario.start) _ _ Hsize)); vm_compute; reflexivity.
  - apply (proj2 (proj1 (size_filter_inclusive_at_boundary
              Scenario.libs "https://example.com/logo.svg" Scenario.svg_300x200 "out" 60001
              Scenario.start) _ _ Hsize)); vm_compute; reflexivity.
  - exact (proj1 (proj2 (size_filter_inclusive_at_boundary
              Scenario.libs "https://example.com/boundary.png" Scenario.png_250x200 "out" 50000
              Scenario.start) (PilImage (250, 200) "PNG") 250 200 eq_refl eq_refl)
             eq_refl eq_refl eq_refl).
  - exact (proj2 (proj2 (size_filter_inclusive_at_boundary
              Scenario.libs "https://example.com/boundary.png" Scenario.png_250x200 "out" 50001
              Scenario.start) (PilImage (250, 200) "PNG") 250 200 eq_refl eq_refl)
             eq_refl).
Defined.

(** C5, as stated, fails for the threshold zero, which is non-negative:
    an SVG without dimensions is classified with the size (0, 0), of area
    zero, and with [min_area = 0] the filter [0 >= 0] accepts it, so the
    image and its sidecar are written. *)
Lemma zero_area_stored_when_threshold_is_zero :
  let url := "https://example.com/plain.svg" in
  let w := snd (handle_svg Scenario.libs url Scenario.svg_unsized "out" 0 Scenario.start) in
  fst (get_svg_size Scenario.libs Scenario.svg_unsized Scenario.start)
    = Ok (PyInt 0, PyInt 0) /\
  PyNum.eq_int (PyNum.mul (PyInt 0) (PyInt 0)) 0 = true /\
  0 <= 0 /\
  files w !! "out/3d602e48304dc3d39eda4648001fddcc.svg"
    = Some (ImageBytes Scenario.svg_unsized) /\
  files w !! "out/3d602e48304dc3d39eda4648001fddcc.json"
    = Some (MetadataJson (Metadata url "SVG" (PyInt 0, PyInt 0))).
Proof. vm_compute. repeat split; discriminate. Qed.

(** C5, amended: for every positive [min_area], a candidate whose
    classification result has area zero is rejected and no file is
    written, on the vector path (an unparseable document included, which
    is classified as (0, 0)) and on the generic path; on the generic path
    a payload that cannot be decoded writes no file under any
    threshold. *)
Theorem zero_area_rejected_under_positive_threshold
    L url content folder min_area w :
  0 < min_area ->
  (forall width height,
      fst (get_svg_size L content w) = Ok (width, height) ->
      PyNum.eq_int (PyNum.mul width height) 0 = true ->
      files (snd (handle_svg L url content folder min_area w)) = files w) /\
  (forall e,
      et_fromstring L content = Raise e ->
      files (snd (handle_svg L url content folder min_area w)) = files w) /\
  (forall img width height,
      image_open L content = Ok img ->
      pil_size img = (width, height) ->
      width * height = 0 ->
      files (snd (handle_generic_image L url content folder min_area w)) = files w) /\
  (forall e,
      image_open L content = Raise e ->
      files (snd (handle_generic_image L url content folder min_area w)) = files w).
Proof.
  intros Hpos. repeat split.
  - intros width height Hsize Hzero.
    eapply handle_svg_reject; eauto using ge_int_zero_area.
  - intros e Hparse.
    eapply handle_svg_reject; [eapply get_svg_size_parse_error; exact Hparse |].
    apply ge_int_zero_area; [reflexivity | exact Hpos].
  - intros img width height Hopen Hsize Hzero.
    eapply handle_generic_image_reject; eauto.
    apply ge_int_zero_area; [| exact Hpos].
    unfold PyNum.eq_int. cbn. rewrite Hzero. reflexivity.
  - intros e Hopen. eapply handle_generic_image_undecodable; exact Hopen.
Qed.

Lemma zero_area_rejected_under_positive_threshold_witness :
  files (snd (handle_svg Scenario.libs "https://example.com/plain.svg"
                Scenario.svg_unsized "out" 1 Scenario.start)) = files Scenario.start /\
  files (snd (handle_svg Scenario.libs "https://example.com/broken.svg"
                Scenario.not_xml "out" 1 Scenario.start)) = files Scenario.start /\
  files (snd (handle_generic_image Scenario.libs "https://example.com/bad.png"
                Scenario.garbage "out" 1 Scenario.start)) = files Scenario.start.
Proof.
  assert (Hpos : 0 < 1) by lia.
  split; [| split].
  - apply (proj1 (zero_area_rejected_under_positive_threshold
                    Scenario.libs "https://example.com/plain.svg" Scenario.svg_unsized
                    "out" 1 Scenario.start Hpos) (PyInt 0) (PyInt 0));
      vm_compute; reflexivity.
  - apply (proj1 (proj2 (zero_area_rejected_under_positive_threshold
                    Scenario.libs "https://example.com/broken.svg" Scenario.not_xml
                    "out" 1 Scenario.start Hpos))
             (ParseError "syntax error: line 1, column 0")).
    vm_compute; reflexivity.
  - apply (proj2 (proj2 (proj2 (zero_area_rejected_under_positive_threshold
                    Scenario.libs "https://example.com/bad.png" Scenario.garbage
                    "out" 1 Scenario.start Hpos)))
             (UnidentifiedImageError "cannot identify image file")).
    vm_compute; reflexivity.
Defined.

(** *** Routing *)

(** C6: a response fetched with status 200 is routed by its declared
    content type alone, whatever its bytes: to the vector handler when the
    type contains [image/svg+xml]; else to the JPEG XL handler when it
    contains [image/jxl]; else to the generic handler. *)
Theorem routing_by_declared_content_type L url folder min_area r w :
  requests_get L url = Ok r ->
  status_code r = 200 ->
  let content_type := default "" (headers r !! "Content-Type") in
  (PyStr.contains "image/svg+xml" content_type = true ->
   download_image L url folder min_area w =
   handle_svg L url (content r) folder min_area w) /\
  (PyStr.contains "image/svg+xml" content_type = false ->
   PyStr.contains "image/jxl" content_type = true ->
   download_image L url folder min_area w =
   handle_jpeg_xl L url (content r) folder w) /\
  (PyStr.contains "image/svg+xml" content_type = false ->
   PyStr.contains "image/jxl" content_type = false ->
   download_image L url folder min_area w =
   handle_generic_image L url (content r) folder min_area w).
Proof.
  intros Hget Hstatus content_type.
  rewrite (download_image_dispatch _ _ _ _ _ _ Hget Hstatus). cbv zeta.
  fold content_type.
  repeat split; intros; repeat match goal with H : PyStr.contains _ _ = _ |- _ =>
                                 rewrite H; clear H end; reflexivity.
Qed.

Lemma routing_by_declared_content_type_witness :
  download_image Scenario.libs "https://example.com/broken.svg" "out" 50000 Scenario.start
    = handle_svg Scenario.libs "https://example.com/broken.svg" Scenario.not_xml "out" 50000
        Scenario.start /\
  download_image Scenario.libs "https://example.com/tiny.jxl" "out" 50000 Scenario.start
    = handle_jpeg_xl Scenario.libs "https://example.com/tiny.jxl" Scenario.jxl_10x10 "out"
        Scenario.start /\
  download_image Scenario.libs "https://example.com/bad.png" "out" 50000 Scenario.start
    = handle_generic_image Scenario.libs "https://example.com/bad.png" Scenario.garbage "out"
        50000 Scenario.start.
Proof.
  split; [| split].
  - exact (proj1 (routing_by_declared_content_type Scenario.libs
                    "https://example.com/broken.svg" "out" 50000
                    (Response 200 {[ "Content-Type" := "image/svg+xml; charset=utf-8" ]}
                       Scenario.not_xml)
                    Scenario.start eq_refl eq_refl) eq_refl).
  - exact (proj1 (proj2 (routing_by_declared_content_type Scenario.libs
                    "https://example.com/tiny.jxl" "out" 50000
                    (Response 200 {[ "Content-Type" := "image/jxl" ]} Scenario.jxl_10x10)
                    Scenario.start eq_refl eq_refl)) eq_refl eq_refl).
  - exact (proj2 (proj2 (routing_by_declared_content_type Scenario.libs
                    "https://example.com/bad.png" "out" 50000
                    (Response 200 {[ "Content-Type" := "image/png" ]} Scenario.garbage)
                    Scenario.start eq_refl eq_refl)) eq_refl eq_refl).
Defined.

(** *** Failure isolation *)




(** *** Overwriting and the fingerprint *)

(** C8: persisting the same URL twice with the same bytes is idempotent
    on the output directory.  When a handler stores the image (the size
    passes the filter and the two files can be opened) then, from every
    state of the directory and whatever the two names held before
    ([stored_in_place]): both runs return; each of them writes the image
    and then the sidecar under the names derived from the fingerprint of
    the URL; after the second run the directory is as the first run left
    it, the two names hold the bytes and the metadata, and no name was
    added beyond these two; the second run prints the lines of the first,
    without a warning.  The dispatcher has this from the handler it
    selects.  Whatever the outcome of a handler, stored or not, a second
    run leaves the files as the first left them. *)
Theorem persisting_twice_is_idempotent L url response_content folder min_area w :
  let image extension := path_join folder (md5_hash url ++ "." ++ extension) in
  let sidecar := path_join folder (md5_hash url ++ ".json") in
  (forall width height out,
      get_svg_size L response_content w
      = (Ok (width, height), World (files w) (dirs w) (stdout w ++ out)) ->
      PyNum.ge_int (PyNum.mul width height) min_area = true ->
      open_error L (image "svg") = None ->
      open_error L sidecar = None ->
      stored_in_place folder url "svg" response_content (Metadata url "SVG" (width, height))
        (out ++ [Downloaded (image "svg") width height "SVG"; MetadataSaved sidecar])
        (handle_svg L url response_content folder min_area) w) /\
  (forall width height,
      pyjxl_decode L response_content = Ok (width, height) ->
      open_error L (image "jxl") = None ->
      open_error L sidecar = None ->
      stored_in_place folder url "jxl" response_content
        (Metadata url "JPEG XL" (PyInt width, PyInt height))
        [Downloaded (image "jxl") (PyInt width) (PyInt height) "JPEG XL";
         MetadataSaved sidecar]
        (handle_jpeg_xl L url response_content folder) w) /\
  (forall img width height,
      image_open L response_content = Ok img ->
      pil_size img = (width, height) ->
      PyNum.ge_int (PyNum.mul (PyInt width) (PyInt height)) min_area = true ->
      open_error L (image (PyStr.lower (pil_format img))) = None ->
      open_error L sidecar = None ->
      stored_in_place folder url (PyStr.lower (pil_format img)) response_content
        (Metadata url (pil_format img) (PyInt width, PyInt height))
        [Downloaded (image (PyStr.lower (pil_format img))) (PyInt width) (PyInt height)
           (pil_format img);
         MetadataSaved sidecar]
        (handle_generic_image L url response_content folder min_area) w) /\
  (forall r extension m lines,
      requests_get L url = Ok r ->
      status_code r = 200 ->
      stored_in_place folder url extension (content r) m lines
        (handler_of L url folder min_area r) w ->
      stored_in_place folder url extension (content r) m lines
        (download_image L url folder min_area) w) /\
  (let unchanged_by_second_run (m : M unit) :=
     files (snd (m (snd (m w)))) = files (snd (m w)) in
   unchanged_by_second_run (handle_svg L url response_content folder min_area) /\
   unchanged_by_second_run (handle_jpeg_xl L url response_content folder) /\
   unchanged_by_second_run (handle_generic_image L url response_content folder min_area) /\
   unchanged_by_second_run (download_image L url folder min_area)).
Proof.
  cbv zeta. split; [| split; [| split; [| split]]].
  - intros width height out Hsize Hge Himg Hjson.
    apply stored_in_place_intro. apply handle_svg_stores; auto.
    destruct (get_svg_size_run L response_content) as (size & out' & Hrun).
    rewrite Hrun in Hsize. injection Hsize as -> Hout. apply app_inv_head in Hout.
    subst out'. exact Hrun.
  - intros width height Hdecode Himg Hjson.
    apply stored_in_place_intro. apply handle_jpeg_xl_stores; auto.
  - intros img width height Hopen Hsize Hge Himg Hjson.
    apply stored_in_place_intro. apply handle_generic_image_stores; auto.
  - intros r extension m lines Hget Hstatus H.
    unfold stored_in_place in *.
    rewrite !(download_image_route _ _ _ _ _ _ Hget Hstatus). exact H.
  - repeat split; apply total_idempotent;
      auto using total_handle_svg, total_handle_jpeg_xl, total_handle_generic_image,
        total_download_image.
Qed.

Lemma persisting_twice_is_idempotent_witness :
  let url := "https://example.com/logo.svg" in
  let image := path_join "out" (md5_hash url ++ "." ++ "svg") in
  let sidecar := path_join "out" (md5_hash url ++ ".json") in
  let size := (PyFloat Scenario.float_300, PyFloat Scenario.float_200) in
  let before :=
    World {[ "out/cf6f50ae5983e01f7572fc4d6c795482.svg" := ImageBytes "<svg/>";
             "out/other.png" := ImageBytes Scenario.png_800x600 ]} ∅ [] in
  stored_in_place "out" url "svg" Scenario.svg_300x200 (Metadata url "SVG" size)
    ([] ++ [Downloaded image (fst size) (snd size) "SVG"; MetadataSaved sidecar])
    (handle_svg Scenario.libs url Scenario.svg_300x200 "out" 50000) before.
Proof.
  cbv zeta.
  apply (proj1 (persisting_twice_is_idempotent Scenario.libs "https://example.com/logo.svg"
                  Scenario.svg_300x200 "out" 50000 _)
           (PyFloat Scenario.float_300) (PyFloat Scenario.float_200) []);
    vm_compute; reflexivity.
Defined.

(** The logo stored twice in a directory that held another file under
    its name, and an unrelated one. *)
Example scenario_stored_twice :
  let url := "https://example.com/logo.svg" in
  let run := handle_svg Scenario.libs url Scenario.svg_300x200 "out" 50000 in
  let before :=
    World {[ "out/cf6f50ae5983e01f7572fc4d6c795482.svg" := ImageBytes "<svg/>";
             "out/other.png" := ImageBytes Scenario.png_800x600 ]} ∅ [] in
  let size := (PyFloat Scenario.float_300, PyFloat Scenario.float_200) in
  let listing :=
    [ ("out/other.png", ImageBytes Scenario.png_800x600);
      ("out/cf6f50ae5983e01f7572fc4d6c795482.svg", ImageBytes Scenario.svg_300x200);
      ("out/cf6f50ae5983e01f7572fc4d6c795482.json", MetadataJson (Metadata url "SVG" size)) ] in
  Scenario.listing (snd (run before)) = listing /\
  Scenario.listing (snd (run (snd (run before)))) = listing.
Proof. cbv zeta. split; vm_compute; reflexivity. Qed.

(** C9: the fingerprint is a pure function of the URL.  Equal URLs have
    equal fingerprints; the fingerprint is a digest of 32 lowercase
    hexadecimal digits; and whatever the libraries return, whatever the
    content fetched and whatever the state, every file that handling a
    URL adds to the output directory is named by the fingerprint of that
    URL. *)
Theorem md5_hash_deterministic url :
  (forall url', url' = url -> md5_hash url' = md5_hash url) /\
  String.length (md5_hash url) = 32%nat /\
  all_hex (md5_hash url) = true /\
  (forall L folder min_area w,
      fingerprint_named folder url w (snd (download_image L url folder min_area w))).
Proof.
  split; [intros url' ->; reflexivity |].
  unfold md5_hash, MD5.hexdigest. split; [| split].
  - rewrite hex_length, digest_length. reflexivity.
  - apply hex_all_hex, digest_range.
  - intros. apply download_image_names.
Qed.

Lemma md5_hash_deterministic_witness :
  md5_hash "https://example.com/logo.svg" = md5_hash "https://example.com/logo.svg" /\
  md5_hash "https://example.com/logo.svg" = "cf6f50ae5983e01f7572fc4d6c795482".
Proof.
  split.
  - exact (proj1 (md5_hash_deterministic "https://example.com/logo.svg")
             "https://example.com/logo.svg" eq_refl).
  - vm_compute. reflexivity.
Defined.

(** *** Candidate extraction *)

(** C10: when an image element has a non-empty [src], the candidate URL
    is formed from it and [data-src] is not consulted; [data-src] is used
    only when [src] is absent, [null] or empty; an element with neither
    gives no candidate. *)
Theorem src_preferred_over_data_src L url img w :
  (forall s,
      img !! "src" = Some (Some s) -> s <> "" ->
      collect_image L url img w = collect_image L url (delete "data-src" img) w /\
      (forall full_url,
          urljoin L url s = Ok full_url ->
          PyStr.startswith full_url "http" = true ->
          collect_image L url img w = (Ok [full_url], w))) /\
  (forall d,
      falsy_entry img "src" ->
      img !! "data-src" = Some (Some d) -> d <> "" ->
      forall full_url,
        urljoin L url d = Ok full_url ->
        PyStr.startswith full_url "http" = true ->
        collect_image L url img w = (Ok [full_url], w)) /\
  (falsy_entry img "src" ->
   falsy_entry img "data-src" ->
   collect_image L url img w = (Ok [], w)).
Proof.
  assert (Hfalsy : forall key other,
             falsy_entry img key -> or_none (mjoin (img !! key)) other = other).
  { intros key other [-> | [-> | ->]]; reflexivity. }
  split; [| split].
  - intros s Hsrc Hs. split.
    + unfold collect_image. rewrite lookup_delete_ne by discriminate.
      rewrite Hsrc. cbn [mjoin option_join or_none].
      destruct s; [congruence | reflexivity].
    + intros full_url Hjoin Hhttp. unfold collect_image. rewrite Hsrc.
      cbn [mjoin option_join or_none].
      destruct s as [| c s]; [congruence |]. cbn [PyStr.truthy].
      unfold bind, call. rewrite Hjoin, Hhttp. reflexivity.
  - intros d Hsrc Hdata Hd full_url Hjoin Hhttp. unfold collect_image.
    rewrite (Hfalsy _ _ Hsrc), Hdata. cbn [mjoin option_join].
    destruct d as [| c d]; [congruence |]. cbn [PyStr.truthy].
    unfold bind, call. rewrite Hjoin, Hhttp. reflexivity.
  - intros Hsrc Hdata. unfold collect_image. rewrite (Hfalsy _ _ Hsrc).
    destruct Hdata as [-> | [-> | ->]]; reflexivity.
Qed.

Lemma src_preferred_over_data_src_witness :
  let both := Scenario.element (Some (Some "broken.jxl")) (Some (Some "lazy.png")) in
  let lazy := Scenario.element (Some None) (Some (Some "logo.svg")) in
  let neither := Scenario.element (Some (Some "")) None in
  collect_image Scenario.libs "https://example.com/" both Scenario.start
    = (Ok ["https://example.com/broken.jxl"], Scenario.start) /\
  collect_image Scenario.libs "https://example.com/" lazy Scenario.start
    = (Ok ["https://example.com/logo.svg"], Scenario.start) /\
  collect_image Scenario.libs "https://example.com/" neither Scenario.start
    = (Ok [], Scenario.start).
Proof.
  cbv zeta. split; [| split].
  - apply (proj2 (proj1 (src_preferred_over_data_src Scenario.libs "https://example.com/"
                           (Scenario.element (Some (Some "broken.jxl"))
                              (Some (Some "lazy.png")))
                           Scenario.start) "broken.jxl" eq_refl ltac:(discriminate)));
      reflexivity.
  - apply (proj1 (proj2 (src_preferred_over_data_src Scenario.libs "https://example.com/"
                           (Scenario.element (Some None) (Some (Some "logo.svg")))
                           Scenario.start)) "logo.svg");
      [right; left; reflexivity | reflexivity | discriminate | reflexivity | reflexivity].
  - apply (proj2 (proj2 (src_preferred_over_data_src Scenario.libs "https://example.com/"
                           (Scenario.element (Some (Some "")) None)
                           Scenario.start)));
      [right; right; reflexivity | left; reflexivity].
Defined.

(** ** The scenarios of the specification *)

(** An SVG of 300 by 200 with [min_area = 50000] is accepted, with the
    size (300.0, 200.0) and the format SVG. *)
Example scenario_svg_accepted :
  let url := "https://example.com/logo.svg" in
  let run := download_image Scenario.libs url "out" 50000 Scenario.start in
  let size := (PyFloat Scenario.float_300, PyFloat Scenario.float_200) in
  files (snd run) = persist "out" url "svg" Scenario.svg_300x200
                      (Metadata url "SVG" size) ∅ /\
  stdout (snd run)
    = [ Downloaded "out/cf6f50ae5983e01f7572fc4d6c795482.svg" (fst size) (snd size) "SVG";
        MetadataSaved "out/cf6f50ae5983e01f7572fc4d6c795482.json" ].
Proof. split; vm_compute; reflexivity. Qed.

(** An SVG of 100px by 100px with [min_area = 50000] is rejected and no
    file is written. *)
Example scenario_svg_rejected :
  let url := "https://example.com/icon.svg" in
  let run := download_image Scenario.libs url "out" 50000 Scenario.start in
  files (snd run) = ∅ /\
  exists width height,
    stdout (snd run) = [SkippedTooSmall url width height "SVG"] /\
    PyNum.eq_int (PyNum.mul width height) 10000 = true.
Proof.
  split; [vm_compute; reflexivity |].
  exists (PyFloat (S754_finite false 7036874417766400 (-46))),
         (PyFloat (S754_finite false 7036874417766400 (-46))).
  split; vm_compute; reflexivity.
Qed.

(** A PNG of 800 by 600 declared as [image/png] is stored under the
    fingerprint with the extension [png] and the metadata of format PNG
    and size [800, 600]. *)
Example scenario_png_persisted :
  let url := "https://example.com/photo.png" in
  let run := download_image Scenario.libs url "out" 50000 Scenario.start in
  Scenario.listing (snd run)
    = [ ("out/72f508ba1de2b8cc23af72d56249f5e9.json",
         MetadataJson (Metadata url "PNG" (PyInt 800, PyInt 600)));
        ("out/72f508ba1de2b8cc23af72d56249f5e9.png", ImageBytes Scenario.png_800x600) ].
Proof. vm_compute. reflexivity. Qed.

(** Malformed bytes declared as [image/png]: the generic classifier
    reports an unidentified format, no file is written and one line is
    printed. *)
Example scenario_png_malformed :
  let url := "https://example.com/bad.png" in
  let run := download_image Scenario.libs url "out" 50000 Scenario.start in
  fst run = Ok tt /\ files (snd run) = ∅ /\ stdout (snd run) = [NotRecognized url].
Proof. vm_compute. repeat split. Qed.

(** The isolation scenario of the specification: of three candidates the
    second fails to decode; the first and the third are stored with their
    sidecars and the run ends normally. *)
Example isolation_of_three_candidates :
  let run := scrape_images Scenario.libs "https://example.com/" "out" 50000 Scenario.start in
  let png := "https://example.com/photo.png" in
  let jxl := "https://example.com/broken.jxl" in
  let svg := "https://example.com/logo.svg" in
  let size := (PyFloat Scenario.float_300, PyFloat Scenario.float_200) in
  fst run = Ok tt /\
  files (snd run) !! "out/72f508ba1de2b8cc23af72d56249f5e9.png"
    = Some (ImageBytes Scenario.png_800x600) /\
  files (snd run) !! "out/72f508ba1de2b8cc23af72d56249f5e9.json"
    = Some (MetadataJson (Metadata png "PNG" (PyInt 800, PyInt 600))) /\
  files (snd run) !! "out/cf6f50ae5983e01f7572fc4d6c795482.svg"
    = Some (ImageBytes Scenario.svg_300x200) /\
  files (snd run) !! "out/cf6f50ae5983e01f7572fc4d6c795482.json"
    = Some (MetadataJson (Metadata svg "SVG" size)) /\
  stdout (snd run)
    = [ SendingRequest; ResponseReceived 200; ExtractedData Scenario.extraction;
        FoundUrls 3;
        ProcessingImage png;
        Downloaded "out/72f508ba1de2b8cc23af72d56249f5e9.png" (PyInt 800) (PyInt 600) "PNG";
        MetadataSaved "out/72f508ba1de2b8cc23af72d56249f5e9.json";
        ProcessingImage jxl;
        ErrorJpegXl jxl "decoding failed";
        ProcessingImage svg;
        Downloaded "out/cf6f50ae5983e01f7572fc4d6c795482.svg" (fst size) (snd size) "SVG";
        MetadataSaved "out/cf6f50ae5983e01f7572fc4d6c795482.json" ].
Proof.
  cbv zeta.
  split; [vm_compute; reflexivity |].
  split; [vm_compute; reflexivity |].
  split; [vm_compute; reflexivity |].
  split; [vm_compute; reflexivity |].
  split; vm_compute; reflexivity.
Qed.

(** * Further properties of the code *)

(** ** Strings *)

Lemma string_app_nil_r (s : string) : s ++ "" = s.
Proof.
  induction s as [| c s IH]; [reflexivity |].
  change (String c s ++ "") with (String c (s ++ "")). rewrite IH. reflexivity.
Qed.

Lemma startswith_app (s t : string) : PyStr.startswith (s ++ t) s = true.
Proof.
  induction s as [| c s IH]; [destruct t; reflexivity |].
  change (String c s ++ t) with (String c (s ++ t)). cbn [PyStr.startswith].
  rewrite Ascii.eqb_refl. exact IH.
Qed.

Lemma contains_app (sub pre post : string) :
  PyStr.contains sub (pre ++ sub ++ post) = true.
Proof.
  induction pre as [| c pre IH].
  - change ("" ++ sub ++ post) with (sub ++ post).
    destruct (sub ++ post) eqn:E; cbn [PyStr.contains];
      rewrite <- E, startswith_app; reflexivity.
  - change (String c pre ++ sub ++ post) with (String c (pre ++ sub ++ post)).
    cbn [PyStr.contains]. rewrite IH. apply orb_true_r.
Qed.

(** A scan over characters that cannot start a match copies them. *)
Lemma replace_from_skip a old new (s t : string) :
  forall_chars (fun c => negb (Ascii.eqb a c)) s = true ->
  PyStr.replace_from (String a old) new O (s ++ t) =
  s ++ PyStr.replace_from (String a old) new O t.
Proof.
  induction s as [| c s IH]; [reflexivity |].
  cbn [forall_chars]. intros [Hc Hs]%andb_prop.
  change (String c s ++ t) with (String c (s ++ t)).
  cbn [PyStr.replace_from PyStr.startswith].
  destruct (Ascii.eqb a c); [discriminate |]. rewrite (IH Hs). reflexivity.
Qed.

Lemma number_char_facts c :
  number_char c = true ->
  Ascii.eqb "p" c = false /\ Ascii.eqb "e" c = false /\ Ascii.eqb "%" c = false /\
  PyStr.is_space c = false.
Proof.
  destruct c as [[] [] [] [] [] [] [] []]; vm_compute; intros H;
    first [discriminate H | repeat split].
Qed.

Lemma forall_chars_impl (P Q : ascii -> bool) s :
  (forall c, P c = true -> Q c = true) ->
  forall_chars P s = true -> forall_chars Q s = true.
Proof.
  intros HPQ. induction s as [| c s IH]; [reflexivity |].
  cbn. intros [Hc Hs]%andb_prop. rewrite (HPQ _ Hc), (IH Hs). reflexivity.
Qed.

Lemma rstrip_no_space s :
  forall_chars (fun c => negb (PyStr.is_space c)) s = true -> PyStr.rstrip s = s.
Proof.
  induction s as [| c s IH]; [reflexivity |].
  cbn [forall_chars PyStr.rstrip]. intros [Hc Hs]%andb_prop. rewrite (IH Hs).
  destruct s; [| reflexivity].
  destruct (PyStr.is_space c); [discriminate | reflexivity].
Qed.

Lemma lstrip_no_space s :
  forall_chars (fun c => negb (PyStr.is_space c)) s = true -> PyStr.lstrip s = s.
Proof.
  destruct s as [| c s]; [reflexivity |].
  cbn [forall_chars PyStr.lstrip]. intros [Hc _]%andb_prop.
  destruct (PyStr.is_space c); [discriminate | reflexivity].
Qed.

(** X1: a dimension written as a plain decimal number, bare or followed
    by one of the units [px], [em] or [%], is read as that number: the
    unit is removed and nothing else changes. *)
Theorem strip_unit_removes_unit (n : string) :
  forall_chars number_char n = true ->
  n <> "" ->
  strip_unit n = n /\
  strip_unit (n ++ "px") = n /\
  strip_unit (n ++ "em") = n /\
  strip_unit (n ++ "%") = n.
Proof.
  intros Hn Hne.
  assert (Hp : forall_chars (fun c => negb (Ascii.eqb "p" c)) n = true)
    by (eapply forall_chars_impl; [| exact Hn];
        intros c Hc; destruct (number_char_facts c Hc) as (-> & _); reflexivity).
  assert (He : forall_chars (fun c => negb (Ascii.eqb "e" c)) n = true)
    by (eapply forall_chars_impl; [| exact Hn];
        intros c Hc; destruct (number_char_facts c Hc) as (_ & -> & _); reflexivity).
  assert (Hc : forall_chars (fun c => negb (Ascii.eqb "%" c)) n = true)
    by (eapply forall_chars_impl; [| exact Hn];
        intros c Hc; destruct (number_char_facts c Hc) as (_ & _ & -> & _); reflexivity).
  assert (Hs : forall_chars (fun c => negb (PyStr.is_space c)) n = true)
    by (eapply forall_chars_impl; [| exact Hn];
        intros c Hc'; destruct (number_char_facts c Hc') as (_ & _ & _ & ->); reflexivity).
  assert (Hpx : forall t, PyStr.replace "px" "" (n ++ t) = n ++ PyStr.replace "px" "" t)
    by (intros t; apply replace_from_skip, Hp).
  assert (Hem : forall t, PyStr.replace "em" "" (n ++ t) = n ++ PyStr.replace "em" "" t)
    by (intros t; apply replace_from_skip, He).
  assert (Hpc : forall t, PyStr.replace "%" "" (n ++ t) = n ++ PyStr.replace "%" "" t)
    by (intros t; apply replace_from_skip, Hc).
  assert (Hbare : PyStr.or_else (PyStr.strip n) "0" = n).
  { unfold PyStr.strip. rewrite (lstrip_no_space n Hs), (rstrip_no_space n Hs).
    destruct n; [congruence | reflexivity]. }
  assert (Hplain : strip_unit n = n).
  { unfold strip_unit. rewrite <- (string_app_nil_r n) at 1.
    rewrite Hpx. cbn [PyStr.replace PyStr.replace_from].
    rewrite Hem. cbn [PyStr.replace PyStr.replace_from].
    rewrite Hpc. cbn [PyStr.replace PyStr.replace_from].
    rewrite string_app_nil_r. exact Hbare. }
  split; [exact Hplain |].
  unfold strip_unit in *.
  repeat split.
  - rewrite Hpx. change (PyStr.replace "px" "" "px") with "".
    rewrite string_app_nil_r. rewrite <- (string_app_nil_r n) in Hplain at 1.
    rewrite Hpx in Hplain. change (PyStr.replace "px" "" "") with "" in Hplain.
    rewrite string_app_nil_r in Hplain. exact Hplain.
  - rewrite Hpx. change (PyStr.replace "px" "" "em") with "em".
    rewrite Hem. change (PyStr.replace "em" "" "em") with "".
    rewrite Hpc. change (PyStr.replace "%" "" "") with "".
    rewrite string_app_nil_r. exact Hbare.
  - rewrite Hpx. change (PyStr.replace "px" "" "%") with "%".
    rewrite Hem. change (PyStr.replace "em" "" "%") with "%".
    rewrite Hpc. change (PyStr.replace "%" "" "%") with "".
    rewrite string_app_nil_r. exact Hbare.
Qed.

Lemma strip_unit_removes_unit_witness :
  strip_unit "12.5" = "12.5" /\
  strip_unit ("12.5" ++ "px") = "12.5" /\
  strip_unit ("12.5" ++ "em") = "12.5" /\
  strip_unit ("12.5" ++ "%") = "12.5".
Proof.
  apply (strip_unit_removes_unit "12.5"); [reflexivity | discriminate].
Defined.

(** ** The SVG classifier *)

(** X2: the SVG classifier never raises and never writes a file: it
    always returns a size, which is either [(0, 0)] or a pair of floats
    that are both different from zero, and it prints at most one line,
    the cause of a failure, in which case the size is [(0, 0)]. *)
Theorem get_svg_size_always_returns_a_size L content w :
  exists size out,
    get_svg_size L content w = (Ok size, World (files w) (dirs w) (stdout w ++ out)) /\
    (size = (PyInt 0, PyInt 0) \/
     exists x y, size = (PyFloat x, PyFloat y) /\
                 PyFloat.truthy x = true /\ PyFloat.truthy y = true) /\
    (out = [] \/ exists msg, out = [ErrorSvgSize msg] /\ size = (PyInt 0, PyInt 0)).
Proof.
  unfold get_svg_size, try_except, bind, call, float, ret, raise, print.
  destruct (et_fromstring L content) as [attrib | e].
  - cbv zeta.
    destruct (PyFloat.of_string (strip_unit (default "0" (attrib !! "width")))) as [x |].
    + destruct (PyFloat.of_string (strip_unit (default "0" (attrib !! "height")))) as [y |].
      * eexists _, []. rewrite app_nil_r, world_eta.
        split; [reflexivity |]. split; [| left; reflexivity].
        destruct (PyFloat.truthy x) eqn:Hx; [| left; reflexivity].
        destruct (PyFloat.truthy y) eqn:Hy; [| left; reflexivity].
        right. exists x, y. auto.
      * eexists _, [_]. split; [reflexivity |]. split; [left; reflexivity |].
        right. eexists. split; reflexivity.
    + eexists _, [_]. split; [reflexivity |]. split; [left; reflexivity |].
      right. eexists. split; reflexivity.
  - eexists _, [_]. split; [reflexivity |]. split; [left; reflexivity |].
    right. eexists. split; reflexivity.
Qed.

(** X3: a width or height attribute written in ASCII whose text, once
    [px], [em] and [%] are removed, is not a float literal (another unit,
    a keyword) makes the classifier print the cause and return [(0, 0)];
    under a positive threshold the image is then not stored.  (The
    attribute is taken in ASCII because [float] and [str.strip] are
    implemented on that range.) *)
Theorem svg_unreadable_dimension_gives_zero_size
    L url content folder min_area attrib key v w :
  et_fromstring L content = Ok attrib ->
  key = "width" \/ key = "height" ->
  attrib !! key = Some v ->
  PyStr.is_ascii v = true ->
  PyFloat.of_string (strip_unit v) = None ->
  fst (get_svg_size L content w) = Ok (PyInt 0, PyInt 0) /\
  (exists msg, stdout (snd (get_svg_size L content w)) = (stdout w ++ [ErrorSvgSize msg])%list) /\
  (0 < min_area ->
   files (snd (handle_svg L url content folder min_area w)) = files w).
Proof.
  intros Hparse Hkey Hv _ Hfloat.
  assert (Hrun : fst (get_svg_size L content w) = Ok (PyInt 0, PyInt 0) /\
                 exists msg, stdout (snd (get_svg_size L content w))
                             = (stdout w ++ [ErrorSvgSize msg])%list).
  { unfold get_svg_size, try_except, bind, call, float, ret, raise, print.
    rewrite Hparse. cbv zeta. destruct Hkey as [-> | ->]; rewrite Hv;
      change (default "0" (Some v)) with v.
    - rewrite Hfloat. cbn. eauto.
    - destruct (PyFloat.of_string (strip_unit (default "0" (attrib !! "width"))));
        [rewrite Hfloat |]; cbn; eauto. }
  destruct Hrun as [Hsize Hout]. split; [exact Hsize |]. split; [exact Hout |].
  intros Hpos. eapply handle_svg_reject; [exact Hsize |].
  apply ge_int_zero_area; [reflexivity | exact Hpos].
Qed.

Lemma svg_unreadable_dimension_witness :
  let run := get_svg_size Cases.libs Cases.svg_points Scenario.start in
  fst run = Ok (PyInt 0, PyInt 0) /\
  (exists msg, stdout (snd run) = (stdout Scenario.start ++ [ErrorSvgSize msg])%list) /\
  (0 < 1 ->
   files (snd (handle_svg Cases.libs "https://example.com/points.svg" Cases.svg_points
                 "out" 1 Scenario.start)) = files Scenario.start).
Proof.
  apply (svg_unreadable_dimension_gives_zero_size Cases.libs
           "https://example.com/points.svg" Cases.svg_points "out" 1
           (list_to_map [("width", "10pt"); ("height", "10pt")]) "width" "10pt"
           Scenario.start);
    [reflexivity | left; reflexivity | reflexivity | reflexivity | vm_compute; reflexivity].
Defined.

Lemma mul_nan a :
  PyNum.mul (PyFloat S754_nan) a = PyFloat S754_nan /\
  PyNum.mul a (PyFloat S754_nan) = PyFloat S754_nan.
Proof.
  destruct a as [z | x]; cbn; split; try reflexivity;
    unfold PyFloat.mul, SFmul;
    try (destruct x; reflexivity);
    destruct (PyFloat.of_int z); reflexivity.
Qed.

(** X4: an SVG one of whose dimensions is NaN ([width='nan'] is a float
    literal) is rejected at every threshold, zero and negative ones
    included, because every comparison with NaN is false. *)
Theorem svg_nan_dimension_rejected_at_every_threshold
    L url content folder min_area width height w :
  fst (get_svg_size L content w) = Ok (width, height) ->
  width = PyFloat S754_nan \/ height = PyFloat S754_nan ->
  files (snd (handle_svg L url content folder min_area w)) = files w.
Proof.
  intros Hsize Hnan. eapply handle_svg_reject; [exact Hsize |].
  destruct Hnan as [-> | ->].
  - rewrite (proj1 (mul_nan height)). reflexivity.
  - rewrite (proj2 (mul_nan width)). reflexivity.
Qed.

Lemma svg_nan_dimension_witness :
  files (snd (handle_svg Cases.libs "https://example.com/nan.svg" Cases.svg_nan "out" (-1)
                Scenario.start)) = files Scenario.start.
Proof.
  apply (svg_nan_dimension_rejected_at_every_threshold Cases.libs
           "https://example.com/nan.svg" Cases.svg_nan "out" (-1)
           (PyFloat S754_nan) (PyFloat (S754_finite false 7036874417766400 (-46)))
           Scenario.start);
    [vm_compute; reflexivity | left; reflexivity].
Defined.

(** ** The threshold *)

Lemma ge_int_antitone a m m' :
  m <= m' -> PyNum.ge_int a m' = true -> PyNum.ge_int a m = true.
Proof.
  intros Hle. unfold PyNum.ge_int.
  destruct (PyNum.compare_int a m) as [c |] eqn:Hc.
  - destruct c; try reflexivity.
    destruct (Z.eq_dec m m') as [<- | Hne]; [rewrite Hc; auto |].
    rewrite (compare_int_mono a m m' Lt Hc); [auto | discriminate | lia].
  - destruct a as [x | [s | [] | | s m0 e]]; cbn in Hc; discriminate.
Qed.

Lemma handle_svg_lower_threshold L url content folder m m' w :
  m <= m' ->
  files (snd (handle_svg L url content folder m' w)) <> files w ->
  handle_svg L url content folder m w = handle_svg L url content folder m' w.
Proof.
  intros Hle Hstored.
  destruct (get_svg_size_run L content) as ([width height] & out & Hrun).
  revert Hstored. unfold handle_svg, try_except, bind. rewrite !Hrun.
  destruct (PyNum.ge_int (PyNum.mul width height) m') eqn:Hge.
  - rewrite (ge_int_antitone _ _ _ Hle Hge). reflexivity.
  - intros Hstored. exfalso. apply Hstored. reflexivity.
Qed.

Lemma handle_generic_image_lower_threshold L url content folder m m' w :
  m <= m' ->
  files (snd (handle_generic_image L url content folder m' w)) <> files w ->
  handle_generic_image L url content folder m w =
  handle_generic_image L url content folder m' w.
Proof.
  intros Hle. unfold handle_generic_image, try_except, bind, call.
  destruct (image_open L content) as [[[width height] format] | e]; [| reflexivity].
  cbn [pil_size pil_format].
  destruct (PyNum.ge_int (PyNum.mul (PyInt width) (PyInt height)) m') eqn:Hge.
  - rewrite (ge_int_antitone _ _ _ Hle Hge). reflexivity.
  - intros Hstored. exfalso. apply Hstored. reflexivity.
Qed.

(** X5: lowering the threshold never loses an image.  When fetching a
    URL with the threshold [m'] changes the output directory, fetching
    it with any threshold [m <= m'] has exactly the same outcome: the
    same files with the same contents and the same lines. *)
Theorem lower_threshold_keeps_stored_image L url folder m m' w :
  m <= m' ->
  files (snd (download_image L url folder m' w)) <> files w ->
  download_image L url folder m w = download_image L url folder m' w.
Proof.
  intros Hle Hstored.
  destruct (requests_get L url) as [r | e] eqn:Hget.
  - destruct (Z.eq_dec (status_code r) 200) as [Hstatus | Hstatus].
    + rewrite (download_image_dispatch _ _ _ _ _ _ Hget Hstatus) in Hstored.
      rewrite !(download_image_dispatch _ _ _ _ _ _ Hget Hstatus).
      cbv zeta in *.
      destruct (PyStr.contains "image/svg+xml" _);
        [| destruct (PyStr.contains "image/jxl" _)].
      * apply handle_svg_lower_threshold; assumption.
      * reflexivity.
      * apply handle_generic_image_lower_threshold; assumption.
    + unfold download_image, try_except, bind, call. rewrite Hget.
      apply Z.eqb_neq in Hstatus. rewrite Hstatus. reflexivity.
  - unfold download_image, try_except, bind, call. rewrite Hget. reflexivity.
Qed.

Lemma lower_threshold_keeps_stored_image_witness :
  download_image Scenario.libs "https://example.com/photo.png" "out" 10 Scenario.start =
  download_image Scenario.libs "https://example.com/photo.png" "out" 50000 Scenario.start.
Proof.
  apply lower_threshold_keeps_stored_image; [lia |].
  intros H.
  assert (Hfile : files (snd (download_image Scenario.libs "https://example.com/photo.png"
                               "out" 50000 Scenario.start))
                    !! "out/72f508ba1de2b8cc23af72d56249f5e9.png"
                  = Some (ImageBytes Scenario.png_800x600))
    by (vm_compute; reflexivity).
  rewrite H in Hfile. discriminate Hfile.
Defined.

(** ** Write failures *)

(** X6: when the image file cannot be opened for writing, no handler
    writes anything, and each returns normally. *)
Theorem image_write_failure_writes_nothing L url content folder min_area e w :
  (forall extension,
      open_error L (path_join folder (md5_hash url ++ "." ++ extension)) = Some e) ->
  (fst (handle_svg L url content folder min_area w) = Ok tt /\
   files (snd (handle_svg L url content folder min_area w)) = files w) /\
  (fst (handle_jpeg_xl L url content folder w) = Ok tt /\
   files (snd (handle_jpeg_xl L url content folder w)) = files w /\
   stdout (snd (handle_jpeg_xl L url content folder w))
     = (stdout w ++ [ErrorJpegXl url (exn_str e)])%list) /\
  (fst (handle_generic_image L url content folder min_area w) = Ok tt /\
   files (snd (handle_generic_image L url content folder min_area w)) = files w).
Proof.
  intros Hopen. split; [| split].
  - split; [apply total_unit_ok, total_handle_svg |].
    destruct (get_svg_size_run L content) as ([width height] & out & Hrun).
    unfold handle_svg, try_except, bind. rewrite Hrun.
    destruct (PyNum.ge_int _ _); [| reflexivity].
    unfold write_file. cbn. rewrite (Hopen "svg"). reflexivity.
  - unfold handle_jpeg_xl, try_except, bind, write_file. cbn.
    rewrite (Hopen "jxl"). cbn. auto.
  - split; [apply total_unit_ok, total_handle_generic_image |].
    unfold handle_generic_image, try_except, bind, call.
    destruct (image_open L content) as [[[width height] format] | e'];
      [| destruct e'; reflexivity].
    cbn [pil_size pil_format]. destruct (PyNum.ge_int _ _); [| reflexivity].
    unfold write_file. cbn. rewrite (Hopen (PyStr.lower format)).
    destruct e; reflexivity.
Qed.

Lemma image_write_failure_witness :
  let url := "https://example.com/photo.png" in
  let run := handle_generic_image Cases.libs url Scenario.png_800x600 "readonly" 50000
               Scenario.start in
  fst run = Ok tt /\ files (snd run) = files Scenario.start.
Proof.
  apply (image_write_failure_writes_nothing Cases.libs "https://example.com/photo.png"
           Scenario.png_800x600 "readonly" 50000
           (OSError "[Errno 13] Permission denied") Scenario.start).
  intros extension. reflexivity.
Defined.

(** X7: the two writes are not transactional.  When the image file is
    written and the sidecar cannot be opened, the handler returns
    normally and leaves the image file without its sidecar: on the
    vector path, the JPEG XL path and the generic path. *)
Theorem sidecar_write_failure_leaves_image L url content folder min_area e w :
  open_error L (path_join folder (md5_hash url ++ ".json")) = Some e ->
  (forall width height,
      fst (get_svg_size L content w) = Ok (width, height) ->
      PyNum.ge_int (PyNum.mul width height) min_area = true ->
      open_error L (path_join folder (md5_hash url ++ ".svg")) = None ->
      fst (handle_svg L url content folder min_area w) = Ok tt /\
      files (snd (handle_svg L url content folder min_area w)) =
      <[path_join folder (md5_hash url ++ ".svg") := ImageBytes content]> (files w)) /\
  (forall size,
      pyjxl_decode L content = Ok size ->
      open_error L (path_join folder (md5_hash url ++ ".jxl")) = None ->
      fst (handle_jpeg_xl L url content folder w) = Ok tt /\
      files (snd (handle_jpeg_xl L url content folder w)) =
      <[path_join folder (md5_hash url ++ ".jxl") := ImageBytes content]> (files w)) /\
  (forall img width height,
      image_open L content = Ok img ->
      pil_size img = (width, height) ->
      min_area <= width * height ->
      open_error L (path_join folder
                      (md5_hash url ++ "." ++ PyStr.lower (pil_format img))) = None ->
      fst (handle_generic_image L url content folder min_area w) = Ok tt /\
      files (snd (handle_generic_image L url content folder min_area w)) =
      <[path_join folder (md5_hash url ++ "." ++ PyStr.lower (pil_format img))
        := ImageBytes content]> (files w)).
Proof.
  intros Hjson. split; [| split].
  - intros width height Hsize Hge Himg.
    split; [apply total_unit_ok, total_handle_svg |].
    destruct (get_svg_size_at _ _ _ _ Hsize) as (out & Hrun).
    unfold handle_svg, try_except, bind. rewrite Hrun, Hge.
    unfold write_file, print. cbn. change ("." +:+ "svg") with ".svg".
    rewrite Himg. cbn. rewrite Hjson. reflexivity.
  - intros [width height] Hdecode Himg.
    split; [apply total_unit_ok, total_handle_jpeg_xl |].
    unfold handle_jpeg_xl, try_except, bind, write_file, call, print. cbn.
    change ("." +:+ "jxl") with ".jxl". rewrite Himg, Hdecode. cbn.
    rewrite Hjson. reflexivity.
  - intros img width height Hopen Hsize Hge Himg.
    split; [apply total_unit_ok, total_handle_generic_image |].
    unfold handle_generic_image, try_except, bind, call. rewrite Hopen, Hsize.
    assert (Hge' : PyNum.ge_int (PyNum.mul (PyInt width) (PyInt height)) min_area = true).
    { unfold PyNum.ge_int. cbn.
      destruct (Z.compare_spec (width * height) min_area); [reflexivity | lia | reflexivity]. }
    rewrite Hge'. unfold write_file, print. cbn. rewrite Himg. cbn. rewrite Hjson.
    destruct e; reflexivity.
Qed.

Lemma sidecar_write_failure_witness :
  let url := "https://example.com/photo.png" in
  let run := handle_generic_image Cases.libs url Scenario.png_800x600 "quota" 50000
               Scenario.start in
  fst run = Ok tt /\
  files (snd run) =
  <[path_join "quota" (md5_hash url ++ "." ++ PyStr.lower "PNG")
    := ImageBytes Scenario.png_800x600]> (files Scenario.start).
Proof.
  cbv zeta.
  assert (Hjson : open_error Cases.libs
                    (path_join "quota" (md5_hash "https://example.com/photo.png" ++ ".json"))
                  = Some (OSError "[Errno 122] Disk quota exceeded"))
    by (vm_compute; reflexivity).
  apply (proj2 (proj2 (sidecar_write_failure_leaves_image Cases.libs
                         "https://example.com/photo.png" Scenario.png_800x600 "quota" 50000
                         _ Scenario.start Hjson))
           (PilImage (800, 600) "PNG") 800 600);
    [reflexivity | reflexivity | lia | vm_compute; reflexivity].
Defined.

Lemma handle_jpeg_xl_accept L url content folder width height w :
  open_error L (path_join folder (md5_hash url ++ ".jxl")) = None ->
  pyjxl_decode L content = Ok (width, height) ->
  open_error L (path_join folder (md5_hash url ++ ".json")) = None ->
  files (snd (handle_jpeg_xl L url content folder w)) =
  persist folder url "jxl" content
    (Metadata url "JPEG XL" (PyInt width, PyInt height)) (files w).
Proof.
  intros Himg Hdecode Hjson.
  unfold handle_jpeg_xl, try_except, bind, write_file, call, print. cbn.
  change ("." +:+ "jxl") with ".jxl". rewrite Himg, Hdecode. cbn.
  rewrite Hjson. reflexivity.
Qed.

(** X8: the JPEG XL handler stores every payload it is given.  When the
    two files can be opened, a payload that decodes is stored with its
    sidecar whatever its size; a payload that does not decode is stored
    without a sidecar, and the cause is printed. *)
Theorem handle_jpeg_xl_outcomes L url content folder w :
  open_error L (path_join folder (md5_hash url ++ ".jxl")) = None ->
  (forall width height,
      pyjxl_decode L content = Ok (width, height) ->
      open_error L (path_join folder (md5_hash url ++ ".json")) = None ->
      files (snd (handle_jpeg_xl L url content folder w)) =
      persist folder url "jxl" content
        (Metadata url "JPEG XL" (PyInt width, PyInt height)) (files w)) /\
  (forall e,
      pyjxl_decode L content = Raise e ->
      files (snd (handle_jpeg_xl L url content folder w)) =
      <[path_join folder (md5_hash url ++ ".jxl") := ImageBytes content]> (files w) /\
      stdout (snd (handle_jpeg_xl L url content folder w))
        = (stdout w ++ [ErrorJpegXl url (exn_str e)])%list).
Proof.
  intros Himg. split.
  - intros width height Hdecode Hjson. apply handle_jpeg_xl_accept; assumption.
  - intros e Hdecode.
    unfold handle_jpeg_xl, try_except, bind, write_file, call, print. cbn.
    change ("." +:+ "jxl") with ".jxl". rewrite Himg, Hdecode. cbn. auto.
Qed.

Lemma handle_jpeg_xl_outcomes_witness :
  let url := "https://example.com/tiny.jxl" in
  files (snd (handle_jpeg_xl Scenario.libs url Scenario.jxl_10x10 "out" Scenario.start)) =
  persist "out" url "jxl" Scenario.jxl_10x10
    (Metadata url "JPEG XL" (PyInt 10, PyInt 10)) (files Scenario.start).
Proof.
  exact (proj1 (handle_jpeg_xl_outcomes Scenario.libs "https://example.com/tiny.jxl"
                  Scenario.jxl_10x10 "out" Scenario.start eq_refl)
           10 10 eq_refl eq_refl).
Defined.

(** ** File names *)

Lemma startswith_nil s : PyStr.startswith s "" = true.
Proof. destruct s; reflexivity. Qed.

(** X9: after the vector handler or the JPEG XL handler has stored an
    image, both files are there: the image file holds the bytes fetched
    and the sidecar holds the metadata, under two different names, so
    the sidecar never replaces the image. *)
Theorem stored_image_has_both_files L url content folder min_area w :
  open_error L (path_join folder (md5_hash url ++ ".json")) = None ->
  (forall width height,
      fst (get_svg_size L content w) = Ok (width, height) ->
      PyNum.ge_int (PyNum.mul width height) min_area = true ->
      open_error L (path_join folder (md5_hash url ++ ".svg")) = None ->
      let w' := snd (handle_svg L url content folder min_area w) in
      files w' !! path_join folder (md5_hash url ++ ".svg") = Some (ImageBytes content) /\
      files w' !! path_join folder (md5_hash url ++ ".json")
        = Some (MetadataJson (Metadata url "SVG" (width, height)))) /\
  (forall width height,
      pyjxl_decode L content = Ok (width, height) ->
      open_error L (path_join folder (md5_hash url ++ ".jxl")) = None ->
      let w' := snd (handle_jpeg_xl L url content folder w) in
      files w' !! path_join folder (md5_hash url ++ ".jxl") = Some (ImageBytes content) /\
      files w' !! path_join folder (md5_hash url ++ ".json")
        = Some (MetadataJson (Metadata url "JPEG XL" (PyInt width, PyInt height)))).
Proof.
  intros Hjson.
  assert (Hlookup : forall extension m,
             extension <> "json" ->
             let fs := persist folder url extension content m (files w) in
             fs !! path_join folder (md5_hash url ++ "." ++ extension)
               = Some (ImageBytes content) /\
             fs !! path_join folder (md5_hash url ++ ".json") = Some (MetadataJson m)).
  { intros extension m Hne. unfold persist. split.
    - rewrite lookup_insert_ne, lookup_insert_eq; [reflexivity |].
      intros H. apply Hne. symmetry.
      exact (path_join_extension_inj folder url "json" extension H).
    - apply lookup_insert_eq. }
  split.
  - intros width height Hsize Hge Himg. cbv zeta.
    rewrite (handle_svg_accept _ _ _ _ _ _ _ _ Hsize Hge Himg Hjson).
    apply (Hlookup "svg"). discriminate.
  - intros width height Hdecode Himg. cbv zeta.
    rewrite (handle_jpeg_xl_accept _ _ _ _ _ _ w Himg Hdecode Hjson).
    apply (Hlookup "jxl"). discriminate.
Qed.

Lemma stored_image_has_both_files_witness :
  let url := "https://example.com/logo.svg" in
  let w' := snd (handle_svg Scenario.libs url Scenario.svg_300x200 "out" 50000
                   Scenario.start) in
  files w' !! path_join "out" (md5_hash url ++ ".svg")
    = Some (ImageBytes Scenario.svg_300x200) /\
  files w' !! path_join "out" (md5_hash url ++ ".json")
    = Some (MetadataJson (Metadata url "SVG"
                            (PyFloat Scenario.float_300, PyFloat Scenario.float_200))).
Proof.
  cbv zeta.
  assert (Hsize : fst (get_svg_size Scenario.libs Scenario.svg_300x200 Scenario.start)
                  = Ok (PyFloat Scenario.float_300, PyFloat Scenario.float_200))
    by (vm_compute; reflexivity).
  apply (proj1 (stored_image_has_both_files Scenario.libs "https://example.com/logo.svg"
                  Scenario.svg_300x200 "out" 50000 Scenario.start eq_refl)
           _ _ Hsize); vm_compute; reflexivity.
Defined.

(** X10: every fingerprint path lies inside the folder it is joined to:
    it begins with the path of the folder, because a fingerprint never
    begins with a slash. *)
Theorem fingerprint_path_inside_folder folder p :
  fingerprint_path folder p -> PyStr.startswith p folder = true.
Proof.
  intros (url & extension & ->).
  destruct (md5_hash_first_char url) as (c & rest & -> & Hc).
  unfold path_join.
  change (String c rest ++ "." ++ extension) with (String c (rest ++ "." ++ extension)).
  cbn [PyStr.startswith]. rewrite Hc.
  destruct (String.eqb_spec folder "") as [-> | _]; [reflexivity |].
  destruct (PyStr.endswith_char folder "/"); apply startswith_app.
Qed.

Lemma fingerprint_path_inside_folder_witness :
  PyStr.startswith "scraped_images/cf6f50ae5983e01f7572fc4d6c795482.svg" "scraped_images"
    = true.
Proof.
  apply fingerprint_path_inside_folder.
  exists "https://example.com/logo.svg", "svg". vm_compute. reflexivity.
Defined.

(** ** The driver *)

Lemma uniform_collect_image L url img : uniform (collect_image L url img).
Proof.
  unfold collect_image.
  destruct (or_none _ _) as [s |]; [| auto with uniform].
  destruct (PyStr.truthy s); [| auto with uniform].
  apply uniform_bind; [auto with uniform |]. intros full_url.
  destruct (negb _); [| auto with uniform].
  apply uniform_bind; auto with uniform.
Qed.

Lemma uniform_collect_images L url imgs : uniform (collect_images L url imgs).
Proof.
  induction imgs as [| img imgs IH]; cbn [collect_images]; [auto with uniform |].
  apply uniform_bind; [apply uniform_collect_image |]. intros found.
  apply uniform_bind; [exact IH |]. intros rest. auto with uniform.
Qed.

Lemma uniform_get_api_key L : uniform (get_api_key L).
Proof.
  unfold get_api_key.
  destruct (environ L !! "SCRAPINGBEE_API_KEY") as [key |]; [| auto with uniform].
  destruct (PyStr.truthy key); auto with uniform.
Qed.

(** What [scrape_images] does once the output directory is there: the
    same from every state. *)
Lemma scrape_images_shape L url output_folder min_area :
  exists r D out, forall w,
    scrape_images L url output_folder min_area w =
    if bool_decide (output_folder ∈ dirs w)
       || bool_decide (is_Some (files w !! output_folder))
    then (r, World (D ∪ files w) (dirs w) (stdout w ++ out))
    else match makedirs_error L output_folder with
         | Some e => (Raise e, w)
         | None => (r, World (D ∪ files w) ({[output_folder]} ∪ dirs w) (stdout w ++ out))
         end.
Proof.
  unfold scrape_images.
  match goal with
  | |- context [bind (get_api_key L) ?k] => set (rest := bind (get_api_key L) k)
  end.
  assert (Hrest : uniform rest).
  { subst rest. apply uniform_bind; [apply uniform_get_api_key |]. intros api_key.
    apply total_uniform, total_try; [| auto with uniform].
    apply uniform_bind; [auto with uniform |]. intros _.
    apply uniform_bind; [auto with uniform |]. intros [[[status ok] body] text].
    apply uniform_bind; [auto with uniform |]. intros _.
    destruct ok.
    - apply uniform_bind; [auto with uniform |]. intros data.
      apply uniform_bind; [auto with uniform |]. intros _.
      apply uniform_bind; [apply uniform_collect_images |]. intros img_urls.
      apply uniform_bind; [auto with uniform |]. intros _.
      apply total_uniform, total_for_each. intros img_url. apply total_process_image.
    - apply uniform_bind; auto with uniform. }
  destruct Hrest as (r & D & out & Hrest). exists r, D, out. intros w.
  unfold bind at 1, path_exists. cbn [fst snd].
  destruct (bool_decide (output_folder ∈ dirs w)
            || bool_decide (is_Some (files w !! output_folder))).
  - unfold bind, ret. apply Hrest.
  - unfold bind, makedirs. destruct (makedirs_error L output_folder); [reflexivity |].
    rewrite Hrest. reflexivity.
Qed.

(** X11: running the scraper a second time on the same page, with the
    libraries answering as before, leaves the output directory exactly
    as the first run left it: the same files with the same contents and
    the same directories. *)
Theorem scrape_images_twice_is_idempotent L url output_folder min_area w :
  let once := snd (scrape_images L url output_folder min_area w) in
  let twice := snd (scrape_images L url output_folder min_area once) in
  files twice = files once /\ dirs twice = dirs once.
Proof.
  cbv zeta.
  destruct (scrape_images_shape L url output_folder min_area) as (r & D & out & H).
  rewrite (H w).
  destruct (bool_decide (output_folder ∈ dirs w)
            || bool_decide (is_Some (files w !! output_folder))) eqn:Hpresent.
  - cbn [snd]. rewrite H. cbn [snd files dirs].
    assert (Hstill : bool_decide (output_folder ∈ dirs w)
                     || bool_decide (is_Some (files (World (D ∪ files w) (dirs w)
                                                      (stdout w ++ out)) !! output_folder))
                     = true).
    { apply orb_true_iff in Hpresent as [Hdir | Hfile]; [rewrite Hdir; reflexivity |].
      apply orb_true_iff. right. apply bool_decide_eq_true.
      apply bool_decide_eq_true in Hfile. cbn [files].
      destruct Hfile as [f Hf]. destruct (D !! output_folder) as [g |] eqn:Hg.
      - exists g. apply lookup_union_Some_l. exact Hg.
      - exists f. rewrite lookup_union_r; assumption. }
    cbn [files] in Hstill. rewrite Hstill. cbn [snd files dirs].
    rewrite (assoc_L (∪)), (idemp_L (∪)). auto.
  - destruct (makedirs_error L output_folder) as [e |] eqn:Hmk.
    + cbn [snd]. rewrite H, Hpresent. try rewrite Hmk. auto.
    + cbn [snd]. rewrite H. cbn [snd files dirs].
      assert (Hnow : bool_decide (output_folder ∈ {[output_folder]} ∪ dirs w) = true)
        by (apply bool_decide_eq_true; set_solver).
      rewrite Hnow. cbn [orb snd files dirs].
      rewrite (assoc_L (∪)), (idemp_L (∪)). auto.
Qed.

(** X12: the output directory is created before the credential is
    looked up.  When [os.makedirs] does not fail, the output folder
    exists after every run, also after a run that raised because the
    credential is missing; in that case nothing is printed and no file
    is written. *)
Theorem output_folder_exists_after_run L url output_folder min_area w :
  makedirs_error L output_folder = None ->
  exists_in output_folder (snd (scrape_images L url output_folder min_area w)) /\
  (environ L !! "SCRAPINGBEE_API_KEY" = None ->
   let run := scrape_images L url output_folder min_area w in
   fst run = Raise (ValueError "SCRAPINGBEE_API_KEY not found in .env file") /\
   files (snd run) = files w /\
   stdout (snd run) = stdout w).
Proof.
  intros Hmk. split.
  - destruct (scrape_images_shape L url output_folder min_area) as (r & D & out & H).
    rewrite H, Hmk.
    destruct (bool_decide (output_folder ∈ dirs w)
              || bool_decide (is_Some (files w !! output_folder))) eqn:Hpresent.
    + apply orb_true_iff in Hpresent as [Hdir | Hfile].
      * left. apply bool_decide_eq_true in Hdir. exact Hdir.
      * right. apply bool_decide_eq_true in Hfile. cbn [snd files].
        destruct Hfile as [f Hf]. destruct (D !! output_folder) as [g |] eqn:Hg.
        -- exists g. apply lookup_union_Some_l. exact Hg.
        -- exists f. rewrite lookup_union_r; assumption.
    + left. cbn [snd dirs]. set_solver.
  - intros Hkey. cbv zeta.
    unfold scrape_images, bind, path_exists, makedirs, get_api_key, ret, raise.
    cbn [fst snd]. rewrite Hkey, Hmk.
    destruct (bool_decide (output_folder ∈ dirs w)
              || bool_decide (is_Some (files w !! output_folder)));
      cbn; auto.
Qed.

Lemma output_folder_exists_after_run_witness :
  let run := scrape_images (Scenario.without_key Scenario.libs) "https://example.com/" "out"
               50000 Scenario.start in
  exists_in "out" (snd run) /\
  fst run = Raise (ValueError "SCRAPINGBEE_API_KEY not found in .env file") /\
  files (snd run) = files Scenario.start /\
  stdout (snd run) = stdout Scenario.start.
Proof.
  cbv zeta.
  destruct (output_folder_exists_after_run (Scenario.without_key Scenario.libs)
              "https://example.com/" "out" 50000 Scenario.start eq_refl) as [Hdir Hkey].
  split; [exact Hdir | exact (Hkey eq_refl)].
Defined.

(** ** What the scraper leaves untouched *)

Lemma touches_same P w d o :
  touches_only P w (World (files w) d o).
Proof. intros p. left. reflexivity. Qed.

Lemma touches_files_eq P w w' :
  files w' = files w -> touches_only P w w'.
Proof. intros H p. left. rewrite H. reflexivity. Qed.

Lemma touches_trans P w1 w2 w3 :
  touches_only P w1 w2 ->
  touches_only P w2 w3 ->
  touches_only P w1 w3.
Proof.
  intros H12 H23 p. destruct (H23 p) as [Heq | Hnew]; [| right; exact Hnew].
  rewrite Heq. apply H12.
Qed.

Lemma touches_insert P w fs d o k v d' o' :
  touches_only P w (World fs d o) ->
  P k ->
  touches_only P w (World (<[k := v]> fs) d' o').
Proof.
  intros H Hk p. cbn [files]. destruct (decide (k = p)) as [<- | Hne].
  - right. rewrite lookup_insert_eq. eauto.
  - rewrite lookup_insert_ne by exact Hne. apply H.
Qed.

Lemma keeps_bind {A B} P (m : M A) (k : A -> M B) :
  keeps_to P m ->
  (forall a, keeps_to P (k a)) ->
  keeps_to P (bind m k).
Proof.
  intros Hm Hk w. unfold bind. specialize (Hm w).
  destruct (m w) as [[a | e] w1]; [| exact Hm].
  eapply touches_trans; [exact Hm | apply Hk].
Qed.

Lemma keeps_try {A} P (body : M A) handler :
  keeps_to P body ->
  (forall e, keeps_to P (handler e)) ->
  keeps_to P (try_except body handler).
Proof.
  intros Hb Hh w. unfold try_except. specialize (Hb w).
  destruct (body w) as [[a | e] w1]; [exact Hb |].
  eapply touches_trans; [exact Hb | apply Hh].
Qed.

Lemma keeps_files_eq {A} P (m : M A) :
  (forall w, files (snd (m w)) = files w) -> keeps_to P m.
Proof. intros H w. apply touches_files_eq, H. Qed.

Lemma keeps_print P l : keeps_to P (print l).
Proof. apply keeps_files_eq. reflexivity. Qed.

Lemma keeps_call {A} P (r : result A) : keeps_to P (call r).
Proof. apply keeps_files_eq. reflexivity. Qed.

Lemma keeps_ret {A} P (a : A) : keeps_to P (ret a).
Proof. apply keeps_files_eq. reflexivity. Qed.

Lemma keeps_write_file L folder url extension data :
  keeps_to (url_path folder url)
    (write_file L (path_join folder (md5_hash url ++ "." ++ extension)) data).
Proof.
  intros w. unfold write_file. destruct (open_error L _); cbn [snd].
  - apply touches_files_eq. reflexivity.
  - apply touches_insert with (d := dirs w) (o := stdout w);
      [apply touches_same | exists extension; reflexivity].
Qed.

Lemma keeps_weaken {A} (P Q : string -> Prop) (m : M A) :
  (forall p, P p -> Q p) -> keeps_to P m -> keeps_to Q m.
Proof.
  intros HPQ Hm w p. destruct (Hm w p) as [Heq | [Hsome HP]]; [left; exact Heq |].
  right. split; [exact Hsome | apply HPQ, HP].
Qed.

Lemma keeps_handle_svg L url content folder min_area :
  keeps_to (url_path folder url) (handle_svg L url content folder min_area).
Proof.
  unfold handle_svg. apply keeps_try; [| intros e; apply keeps_print].
  apply keeps_bind.
  - apply keeps_files_eq. intros w.
    destruct (get_svg_size_run L content) as (size & out & ->). reflexivity.
  - intros [width height]. destruct (PyNum.ge_int _ _); [| apply keeps_print].
    cbv zeta.
    apply keeps_bind; [apply keeps_write_file |]. intros _.
    apply keeps_bind; [apply keeps_print |]. intros _.
    apply keeps_bind; [apply (keeps_write_file L folder url "json") |]. intros _.
    apply keeps_print.
Qed.

Lemma keeps_handle_jpeg_xl L url content folder :
  keeps_to (url_path folder url) (handle_jpeg_xl L url content folder).
Proof.
  unfold handle_jpeg_xl. apply keeps_try; [| intros e; apply keeps_print].
  cbv zeta.
  apply keeps_bind; [apply keeps_write_file |]. intros _.
  apply keeps_bind; [apply keeps_call |]. intros [width height].
  apply keeps_bind; [apply keeps_print |]. intros _.
  apply keeps_bind; [apply (keeps_write_file L folder url "json") |]. intros _.
  apply keeps_print.
Qed.

Lemma keeps_handle_generic_image L url content folder min_area :
  keeps_to (url_path folder url) (handle_generic_image L url content folder min_area).
Proof.
  unfold handle_generic_image. apply keeps_try; [| intros []; apply keeps_print].
  apply keeps_bind; [apply keeps_call |]. intros [[width height] format].
  cbn [pil_size pil_format]. destruct (PyNum.ge_int _ _); [| apply keeps_print].
  cbv zeta.
  apply keeps_bind; [apply keeps_write_file |]. intros _.
  apply keeps_bind; [apply keeps_print |]. intros _.
  apply keeps_bind; [apply (keeps_write_file L folder url "json") |]. intros _.
  apply keeps_print.
Qed.

Lemma keeps_download_image L url folder min_area :
  keeps_to (url_path folder url) (download_image L url folder min_area).
Proof.
  unfold download_image. apply keeps_try; [| intros e; apply keeps_print].
  apply keeps_bind; [apply keeps_call |]. intros r.
  destruct (status_code r =? 200); [| apply keeps_print]. cbv zeta.
  destruct (PyStr.contains "image/svg+xml" _); [apply keeps_handle_svg |].
  destruct (PyStr.contains "image/jxl" _);
    [apply keeps_handle_jpeg_xl | apply keeps_handle_generic_image].
Qed.

Lemma keeps_process_image L folder min_area img_url :
  keeps_to (url_path folder img_url) (process_image L folder min_area img_url).
Proof.
  unfold process_image. apply keeps_try; [| intros e; apply keeps_print].
  apply keeps_bind; [apply keeps_call |]. intros r.
  match goal with |- keeps_to _ (if ?b then _ else _) => destruct b end;
    [| apply keeps_print].
  apply keeps_bind; [apply keeps_print |]. intros _. apply keeps_download_image.
Qed.

Lemma keeps_for_each {A} P (body : A -> M unit) xs :
  (forall x, keeps_to P (body x)) ->
  keeps_to P (for_each xs body).
Proof.
  intros Hbody. induction xs as [| x xs IH]; cbn [for_each]; [apply keeps_ret |].
  apply keeps_bind; [apply Hbody | intros _; exact IH].
Qed.

(** Collecting the URL of an element writes no file. *)
Lemma collect_image_files L url img w :
  files (snd (collect_image L url img w)) = files w.
Proof.
  unfold collect_image.
  destruct (or_none _ _) as [s |]; [| reflexivity].
  destruct (PyStr.truthy s); [| reflexivity].
  unfold bind, call. destruct (urljoin L url s) as [full_url | e]; [| reflexivity].
  destruct (negb _); reflexivity.
Qed.

Lemma collect_images_files L url imgs w :
  files (snd (collect_images L url imgs w)) = files w.
Proof.
  revert w. induction imgs as [| img imgs IH]; intros w; [reflexivity |].
  cbn [collect_images]. unfold bind at 1.
  pose proof (collect_image_files L url img w) as Himg.
  destruct (collect_image L url img w) as [[found | e] w1]; [| exact Himg].
  unfold bind. specialize (IH w1).
  destruct (collect_images L url imgs w1) as [[rest | e] w2];
    unfold ret; cbn [snd] in *; congruence.
Qed.

(** X13: whatever the libraries return, a run of the scraper deletes no
    file, and creates or overwrites only files named by a fingerprint in
    the output folder; every other path keeps the content it had. *)
Theorem scrape_images_touches_only_fingerprints L url output_folder min_area w :
  touches_only (fingerprint_path output_folder) w
    (snd (scrape_images L url output_folder min_area w)).
Proof.
  revert w. change (keeps_to (fingerprint_path output_folder)
                      (scrape_images L url output_folder min_area)).
  unfold scrape_images.
  apply keeps_bind; [apply keeps_files_eq; reflexivity |]. intros present.
  apply keeps_bind.
  { destruct present; [apply keeps_ret |].
    apply keeps_files_eq. intros w. unfold makedirs.
    destruct (makedirs_error L output_folder); reflexivity. }
  intros _. apply keeps_bind.
  { apply keeps_files_eq. intros w. unfold get_api_key.
    destruct (environ L !! "SCRAPINGBEE_API_KEY") as [key |]; [| reflexivity].
    destruct (PyStr.truthy key); reflexivity. }
  intros api_key. apply keeps_try; [| intros e; apply keeps_print].
  apply keeps_bind; [apply keeps_print |]. intros _.
  apply keeps_bind; [apply keeps_call |]. intros [[[status ok] body] text].
  apply keeps_bind; [apply keeps_print |]. intros _.
  destruct ok.
  - apply keeps_bind; [apply keeps_call |]. intros data.
    apply keeps_bind; [apply keeps_print |]. intros _.
    apply keeps_bind; [apply keeps_files_eq, collect_images_files |]. intros img_urls.
    apply keeps_bind; [apply keeps_print |]. intros _.
    apply keeps_for_each. intros img_url.
    apply (keeps_weaken (url_path output_folder img_url)); [| apply keeps_process_image].
    intros p Hp. exists img_url. exact Hp.
  - apply keeps_bind; [apply keeps_print |]. intros _. apply keeps_print.
Qed.

(** ** Candidate URLs *)

Lemma collect_image_result L url img w found w' :
  collect_image L url img w = (Ok found, w') ->
  found = [] \/
  exists s full_url,
    found = [full_url] /\ selected_source img = Some s /\ s <> "" /\
    urljoin L url s = Ok full_url /\ PyStr.startswith full_url "http" = true.
Proof.
  unfold collect_image, selected_source.
  destruct (or_none _ _) as [s |]; [| intros [= <- _]; left; reflexivity].
  destruct s as [| c s]; [intros [= <- _]; left; reflexivity |].
  cbn [PyStr.truthy]. unfold bind, call.
  destruct (urljoin L url (String c s)) as [full_url | e] eqn:Hjoin; [| discriminate].
  destruct (PyStr.startswith full_url "http") eqn:Hhttp; cbn [negb].
  - intros [= <- _]. right. exists (String c s), full_url.
    split; [reflexivity |]. split; [reflexivity |]. split; [discriminate |].
    split; [exact Hjoin | exact Hhttp].
  - intros [= <- _]. left. reflexivity.
Qed.

(** X14: every URL that the driver collects from the extraction result
    begins with [http] and is the page URL joined with the non-empty
    source selected from one of the image elements; an element gives at
    most one URL, and collecting writes no file. *)
Theorem collected_urls_are_joined_http_urls L url imgs w urls w' :
  collect_images L url imgs w = (Ok urls, w') ->
  Forall (fun full_url =>
            PyStr.startswith full_url "http" = true /\
            exists img s,
              In img imgs /\ selected_source img = Some s /\ s <> "" /\
              urljoin L url s = Ok full_url) urls /\
  (List.length urls <= List.length imgs)%nat /\
  files w' = files w.
Proof.
  intros Hrun.
  assert (Hfiles : files w' = files w)
    by (rewrite <- (collect_images_files L url imgs w), Hrun; reflexivity).
  split; [| split; [| exact Hfiles]]; clear Hfiles;
    revert w urls w' Hrun; induction imgs as [| img imgs IH]; intros w urls w';
    cbn [collect_images]; unfold bind, ret.
  - intros [= <- _]. constructor.
  - destruct (collect_image L url img w) as [[found | e] w1] eqn:Himg; [| discriminate].
    destruct (collect_images L url imgs w1) as [[rest | e] w2] eqn:Hrest; [| discriminate].
    intros [= <- _]. apply Forall_app. split.
    + destruct (collect_image_result _ _ _ _ _ _ Himg)
        as [-> | (s & full_url & -> & Hs & Hne & Hjoin & Hhttp)]; [constructor |].
      repeat constructor; [exact Hhttp |]. exists img, s. cbn [In]. auto.
    + eapply Forall_impl; [exact (IH _ _ _ Hrest) |].
      intros u [Hhttp (img' & s & Hin & H)]. split; [exact Hhttp |].
      exists img', s. cbn [In]. auto.
  - intros [= <- _]. reflexivity.
  - destruct (collect_image L url img w) as [[found | e] w1] eqn:Himg; [| discriminate].
    destruct (collect_images L url imgs w1) as [[rest | e] w2] eqn:Hrest; [| discriminate].
    intros [= <- _]. rewrite length_app. specialize (IH _ _ _ Hrest).
    destruct (collect_image_result _ _ _ _ _ _ Himg)
      as [-> | (s & full_url & -> & _)]; cbn [List.length]; lia.
Qed.

Lemma collected_urls_witness :
  let urls := ["https://example.com/photo.png"; "https://example.com/broken.jxl";
               "https://example.com/logo.svg"] in
  Forall (fun full_url =>
            PyStr.startswith full_url "http" = true /\
            exists img s,
              In img (default [] (Scenario.extraction !! "all_images")) /\
              selected_source img = Some s /\ s <> "" /\
              urljoin Scenario.libs "https://example.com/" s = Ok full_url) urls /\
  (List.length urls
   <= List.length (default [] (Scenario.extraction !! "all_images")))%nat /\
  files Scenario.start = files Scenario.start.
Proof.
  cbv zeta.
  apply (collected_urls_are_joined_http_urls Scenario.libs "https://example.com/"
           (default [] (Scenario.extraction !! "all_images")) Scenario.start
           ["https://example.com/photo.png"; "https://example.com/broken.jxl";
            "https://example.com/logo.svg"]
           Scenario.start).
  vm_compute. reflexivity.
Defined.

(** Collecting writes no file and prints only the URLs it skips. *)
Lemma collect_image_run L url img w :
  exists r lines,
    collect_image L url img w = (r, World (files w) (dirs w) (stdout w ++ lines)) /\
    Forall (fun l => exists u, l = InvalidUrlSkipped u) lines.
Proof.
  assert (Hsame : forall r : result (list string),
             exists r' lines,
               (r, w) = (r', World (files w) (dirs w) (stdout w ++ lines)) /\
               Forall (fun l => exists u, l = InvalidUrlSkipped u) lines).
  { intros r. exists r, []. rewrite app_nil_r, world_eta. split; [reflexivity | constructor]. }
  unfold collect_image.
  destruct (or_none _ _) as [s |]; [| apply Hsame].
  destruct (PyStr.truthy s); [| apply Hsame].
  unfold bind, call. destruct (urljoin L url s) as [full_url | e]; [| apply Hsame].
  destruct (negb _); [| apply Hsame].
  exists (Ok []), [InvalidUrlSkipped full_url]. split; [reflexivity |].
  repeat constructor. eauto.
Qed.

(** A source on which [urljoin] raises makes the collection raise. *)
Lemma collect_images_raises L url imgs img s e w :
  In img imgs ->
  selected_source img = Some s -> s <> "" ->
  urljoin L url s = Raise e ->
  exists e' lines,
    collect_images L url imgs w
      = (Raise e', World (files w) (dirs w) (stdout w ++ lines)) /\
    Forall (fun l => exists u, l = InvalidUrlSkipped u) lines.
Proof.
  intros Hin Hs Hne Hjoin. revert w.
  induction imgs as [| img0 imgs IH]; intros w; [destruct Hin |].
  cbn [collect_images]. unfold bind at 1.
  destruct (collect_image_run L url img0 w) as (r & lines0 & Hrun0 & Hlines0).
  rewrite Hrun0.
  destruct Hin as [-> | Hin].
  - assert (Hraise : fst (collect_image L url img w) = Raise e).
    { unfold collect_image. unfold selected_source in Hs. rewrite Hs.
      destruct s as [| c s]; [congruence |]. cbn [PyStr.truthy].
      unfold bind, call. rewrite Hjoin. reflexivity. }
    rewrite Hrun0 in Hraise. cbn [fst] in Hraise. subst r. eauto.
  - destruct r as [found | e0]; [| eauto].
    destruct (IH Hin (World (files w) (dirs w) (stdout w ++ lines0)))
      as (e' & lines & Hrun & Hlines).
    unfold bind. rewrite Hrun. cbn [files dirs stdout].
    exists e', (lines0 ++ lines)%list. rewrite app_assoc. split; [reflexivity |].
    apply Forall_app. auto.
Qed.

(** X15: one source on which [urljoin] raises aborts the whole run.  The
    URLs are all collected before any is fetched, inside the outer
    [try]: when joining raises for the source of any image element, the
    run prints the cause and ends normally without having fetched or
    stored a single image, the valid elements included. *)
Theorem urljoin_failure_aborts_the_run
    L url output_folder min_area w key status body text data imgs img s e :
  makedirs_error L output_folder = None ->
  environ L !! "SCRAPINGBEE_API_KEY" = Some key -> key <> "" ->
  client_get L key url = Ok (status, true, body, text) ->
  json_loads L body = Ok data ->
  data !! "all_images" = Some imgs ->
  In img imgs ->
  selected_source img = Some s -> s <> "" ->
  urljoin L url s = Raise e ->
  exists e' skipped d,
    scrape_images L url output_folder min_area w =
    (Ok tt,
     World (files w) d
       (stdout w ++ [SendingRequest; ResponseReceived status; ExtractedData data]
          ++ skipped ++ [ErrorScraping (exn_str e')])) /\
    Forall (fun l => exists u, l = InvalidUrlSkipped u) skipped.
Proof.
  intros Hmk Hkey Hne Hclient Hjson Hdata Hin Hs Hsne Hjoin.
  unfold scrape_images.
  match goal with
  | |- context [bind (get_api_key L) ?k] => set (rest := bind (get_api_key L) k)
  end.
  assert (Hrest : forall w1, exists e' skipped,
             rest w1 =
             (Ok tt,
              World (files w1) (dirs w1)
                (stdout w1 ++ [SendingRequest; ResponseReceived status; ExtractedData data]
                   ++ skipped ++ [ErrorScraping (exn_str e')])) /\
             Forall (fun l => exists u, l = InvalidUrlSkipped u) skipped).
  { intros w1. subst rest. unfold get_api_key. rewrite Hkey.
    destruct key as [| c key]; [congruence |]. cbn [PyStr.truthy].
    unfold bind at 1, ret at 1. unfold try_except.
    unfold bind at 1, print at 1. unfold bind at 1, call at 1. rewrite Hclient.
    unfold bind at 1, print at 1. unfold bind at 1, call at 1. rewrite Hjson.
    unfold bind at 1, print at 1. rewrite Hdata. change (default [] (Some imgs)) with imgs.
    unfold bind at 1. cbn [files dirs stdout].
    match goal with
    | |- context [collect_images L url imgs ?w2] =>
        destruct (collect_images_raises L url imgs img s e w2 Hin Hs Hsne Hjoin)
          as (e' & skipped & Hrun & Hskipped)
    end.
    rewrite Hrun. unfold print. cbn [files dirs stdout].
    exists e', skipped. split; [| exact Hskipped].
    rewrite <- !app_assoc. reflexivity. }
  unfold bind at 1, path_exists. cbn [fst snd].
  destruct (bool_decide (output_folder ∈ dirs w)
            || bool_decide (is_Some (files w !! output_folder))).
  - unfold bind at 1, ret at 1.
    destruct (Hrest w) as (e' & skipped & -> & Hskipped). eauto.
  - unfold bind at 1, makedirs. rewrite Hmk.
    destruct (Hrest (World (files w) ({[output_folder]} ∪ dirs w) (stdout w)))
      as (e' & skipped & -> & Hskipped).
    eauto.
Qed.

Lemma urljoin_failure_aborts_the_run_witness :
  exists e' skipped d,
    scrape_images Cases.libs "https://example.com/bad-reference" "out" 50000 Scenario.start =
    (Ok tt,
     World (files Scenario.start) d
       (stdout Scenario.start
          ++ [SendingRequest; ResponseReceived 200;
              ExtractedData Cases.extraction_with_bad_reference]
          ++ skipped ++ [ErrorScraping (exn_str e')])) /\
    Forall (fun l => exists u, l = InvalidUrlSkipped u) skipped.
Proof.
  apply (urljoin_failure_aborts_the_run Cases.libs "https://example.com/bad-reference"
           "out" 50000 Scenario.start "secret" 200 "{bad reference}" "{bad reference}"
           Cases.extraction_with_bad_reference
           [ Scenario.element (Some (Some "photo.png")) None;
             Scenario.element (Some (Some Cases.bad_reference)) None ]
           (Scenario.element (Some (Some Cases.bad_reference)) None)
           Cases.bad_reference (ValueError "Invalid IPv6 URL"));
    [ reflexivity | reflexivity | discriminate | reflexivity | reflexivity | reflexivity
    | right; left; reflexivity | reflexivity | discriminate | reflexivity ].
Defined.

(** ** Failures of the extraction service *)

Ltac driver_rest rest :=
  unfold scrape_images;
  match goal with
  | |- context [bind (get_api_key ?L) ?k] => set (rest := bind (get_api_key L) k)
  end.

Ltac driver_finish Hmk Hrest :=
  unfold bind at 1, path_exists; cbn [fst snd];
  match goal with
  | |- context [bool_decide ?P || bool_decide ?Q] =>
      destruct (bool_decide P || bool_decide Q)
  end;
  [ unfold bind at 1, ret at 1; rewrite Hrest; eauto
  | unfold bind at 1, makedirs; rewrite Hmk, Hrest; eauto ].

(** X16: a failure of the extraction step stores nothing and ends the
    run normally, with the lines that tell which step failed: the
    service cannot be reached; it answers with an error status; its
    answer is not JSON; or the answer has no [all_images] entry, which
    counts as zero images. *)
Theorem extraction_failure_stores_nothing L url output_folder min_area w key :
  makedirs_error L output_folder = None ->
  environ L !! "SCRAPINGBEE_API_KEY" = Some key -> key <> "" ->
  (forall e,
      client_get L key url = Raise e ->
      exists d,
        scrape_images L url output_folder min_area w =
        (Ok tt, World (files w) d (stdout w ++ [SendingRequest; ErrorScraping (exn_str e)]))) /\
  (forall status body text,
      client_get L key url = Ok (status, false, body, text) ->
      exists d,
        scrape_images L url output_folder min_area w =
        (Ok tt,
         World (files w) d
           (stdout w ++ [SendingRequest; ResponseReceived status; FailedScrape status;
                         ResponseText text]))) /\
  (forall status body text e,
      client_get L key url = Ok (status, true, body, text) ->
      json_loads L body = Raise e ->
      exists d,
        scrape_images L url output_folder min_area w =
        (Ok tt,
         World (files w) d
           (stdout w ++ [SendingRequest; ResponseReceived status;
                         ErrorScraping (exn_str e)]))) /\
  (forall status body text data,
      client_get L key url = Ok (status, true, body, text) ->
      json_loads L body = Ok data ->
      data !! "all_images" = None ->
      exists d,
        scrape_images L url output_folder min_area w =
        (Ok tt,
         World (files w) d
           (stdout w ++ [SendingRequest; ResponseReceived status; ExtractedData data;
                         FoundUrls 0]))).
Proof.
  intros Hmk Hkey Hne.
  assert (Htruthy : PyStr.truthy key = true) by (destruct key; [congruence | reflexivity]).
  repeat split.
  - intros e Hclient. driver_rest rest.
    assert (Hrest : forall w1,
               rest w1 = (Ok tt, World (files w1) (dirs w1)
                                   (stdout w1 ++ [SendingRequest; ErrorScraping (exn_str e)]))).
    { intros w1. subst rest. unfold get_api_key. rewrite Hkey, Htruthy.
      unfold bind at 1, ret at 1. unfold try_except.
      unfold bind at 1, print at 1. unfold bind at 1, call at 1. rewrite Hclient.
      unfold print. cbn [files dirs stdout]. rewrite <- app_assoc. reflexivity. }
    driver_finish Hmk Hrest.
  - intros status body text Hclient. driver_rest rest.
    assert (Hrest : forall w1,
               rest w1 = (Ok tt, World (files w1) (dirs w1)
                                   (stdout w1 ++ [SendingRequest; ResponseReceived status;
                                                  FailedScrape status; ResponseText text]))).
    { intros w1. subst rest. unfold get_api_key. rewrite Hkey, Htruthy.
      unfold bind at 1, ret at 1. unfold try_except.
      unfold bind at 1, print at 1. unfold bind at 1, call at 1. rewrite Hclient.
      unfold bind, print. cbn [files dirs stdout]. rewrite <- !app_assoc. reflexivity. }
    driver_finish Hmk Hrest.
  - intros status body text e Hclient Hjson. driver_rest rest.
    assert (Hrest : forall w1,
               rest w1 = (Ok tt, World (files w1) (dirs w1)
                                   (stdout w1 ++ [SendingRequest; ResponseReceived status;
                                                  ErrorScraping (exn_str e)]))).
    { intros w1. subst rest. unfold get_api_key. rewrite Hkey, Htruthy.
      unfold bind at 1, ret at 1. unfold try_except.
      unfold bind at 1, print at 1. unfold bind at 1, call at 1. rewrite Hclient.
      unfold bind at 1, print at 1. unfold bind at 1, call at 1. rewrite Hjson.
      unfold print. cbn [files dirs stdout]. rewrite <- !app_assoc. reflexivity. }
    driver_finish Hmk Hrest.
  - intros status body text data Hclient Hjson Hdata. driver_rest rest.
    assert (Hrest : forall w1,
               rest w1 = (Ok tt, World (files w1) (dirs w1)
                                   (stdout w1 ++ [SendingRequest; ResponseReceived status;
                                                  ExtractedData data; FoundUrls 0]))).
    { intros w1. subst rest. unfold get_api_key. rewrite Hkey, Htruthy.
      unfold bind at 1, ret at 1. unfold try_except.
      unfold bind at 1, print at 1. unfold bind at 1, call at 1. rewrite Hclient.
      unfold bind at 1, print at 1. unfold bind at 1, call at 1. rewrite Hjson.
      unfold bind at 1, print at 1. rewrite Hdata.
      change (default [] None) with (@nil img_element).
      cbn [collect_images for_each]. unfold bind, ret, print. cbn [files dirs stdout List.length].
      rewrite <- !app_assoc. reflexivity. }
    driver_finish Hmk Hrest.
Qed.

Lemma extraction_failure_witness :
  (exists d,
      scrape_images Cases.libs "https://example.com/unreachable" "out" 50000 Scenario.start =
      (Ok tt, World (files Scenario.start) d
                (stdout Scenario.start
                   ++ [SendingRequest;
                       ErrorScraping (exn_str (OtherError "connection refused"))]))) /\
  (exists d,
      scrape_images Cases.libs "https://example.com/blocked" "out" 50000 Scenario.start =
      (Ok tt, World (files Scenario.start) d
                (stdout Scenario.start
                   ++ [SendingRequest; ResponseReceived 403; FailedScrape 403;
                       ResponseText "Forbidden"]))) /\
  (exists d,
      scrape_images Cases.libs "https://example.com/garbled" "out" 50000 Scenario.start =
      (Ok tt, World (files Scenario.start) d
                (stdout Scenario.start
                   ++ [SendingRequest; ResponseReceived 200;
                       ErrorScraping
                         (exn_str (ValueError "Expecting value: line 1 column 1 (char 0)"))]))).
Proof.
  assert (Hne : "secret" <> "") by discriminate.
  split; [| split].
  - exact (proj1 (extraction_failure_stores_nothing Cases.libs
                    "https://example.com/unreachable" "out" 50000 Scenario.start "secret"
                    eq_refl eq_refl Hne) _ eq_refl).
  - exact (proj1 (proj2 (extraction_failure_stores_nothing Cases.libs
                    "https://example.com/blocked" "out" 50000 Scenario.start "secret"
                    eq_refl eq_refl Hne)) 403 "" "Forbidden" eq_refl).
  - exact (proj1 (proj2 (proj2 (extraction_failure_stores_nothing Cases.libs
                    "https://example.com/garbled" "out" 50000 Scenario.start "secret"
                    eq_refl eq_refl Hne))) 200 "<html>" "<html>" _ eq_refl eq_refl).
Defined.

(** ** The reachability probe and the fetch *)

(** X17: handling a candidate changes the output directory only if the
    HEAD probe returned 200 with a content type containing [image] and
    the GET that followed returned 200 as well: a probe or a fetch that
    raises, another status, or a content type without [image] (a missing
    header included) leaves every file as it was. *)
Theorem candidate_stored_only_after_probe_and_fetch L output_folder min_area img_url w :
  files (snd (process_image L output_folder min_area img_url w)) <> files w ->
  exists head_response response,
    requests_head L img_url = Ok head_response /\
    status_code head_response = 200 /\
    PyStr.contains "image" (default "" (headers head_response !! "Content-Type")) = true /\
    requests_get L img_url = Ok response /\
    status_code response = 200.
Proof.
  unfold process_image, try_except, bind, call.
  destruct (requests_head L img_url) as [h | e];
    [| intros H; exfalso; apply H; reflexivity].
  destruct (Z.eqb_spec (status_code h) 200) as [Hstatus | _]; cbn [andb];
    [| intros H; exfalso; apply H; reflexivity].
  destruct (PyStr.contains "image" _) eqn:Himage;
    [| intros H; exfalso; apply H; reflexivity].
  unfold print at 1. cbn [fst snd].
  intros Hstored. exists h.
  destruct (requests_get L img_url) as [r | e] eqn:Hget.
  - exists r. repeat split; try assumption.
    destruct (Z.eq_dec (status_code r) 200) as [Hok | Hbad]; [exact Hok |].
    exfalso. apply Hstored.
    unfold download_image, try_except, bind, call. rewrite Hget.
    apply Z.eqb_neq in Hbad. rewrite Hbad. reflexivity.
  - exfalso. apply Hstored.
    unfold download_image, try_except, bind, call. rewrite Hget. reflexivity.
Qed.

Lemma candidate_stored_only_after_probe_and_fetch_witness :
  exists head_response response,
    requests_head Scenario.libs "https://example.com/photo.png" = Ok head_response /\
    status_code head_response = 200 /\
    PyStr.contains "image" (default "" (headers head_response !! "Content-Type")) = true /\
    requests_get Scenario.libs "https://example.com/photo.png" = Ok response /\
    status_code response = 200.
Proof.
  apply (candidate_stored_only_after_probe_and_fetch Scenario.libs "out" 50000
           "https://example.com/photo.png" Scenario.start).
  intros H.
  assert (Hfile : files (snd (process_image Scenario.libs "out" 50000
                               "https://example.com/photo.png" Scenario.start))
                    !! "out/72f508ba1de2b8cc23af72d56249f5e9.png"
                  = Some (ImageBytes Scenario.png_800x600))
    by (vm_compute; reflexivity).
  rewrite H in Hfile. discriminate Hfile.
Defined.

(** X18: the content-type markers are searched anywhere in the header
    value, so parameters before or after the type do not change the
    route, and the vector marker wins over everything else in the
    header; a response without a [Content-Type] header goes to the
    generic handler. *)
Theorem routing_ignores_parameters L url folder min_area r w :
  requests_get L url = Ok r ->
  status_code r = 200 ->
  (forall before after,
      headers r !! "Content-Type" = Some (before ++ "image/svg+xml" ++ after) ->
      download_image L url folder min_area w =
      handle_svg L url (content r) folder min_area w) /\
  (headers r !! "Content-Type" = None ->
   download_image L url folder min_area w =
   handle_generic_image L url (content r) folder min_area w).
Proof.
  intros Hget Hstatus. split.
  - intros before after Htype.
    rewrite (download_image_dispatch _ _ _ _ _ _ Hget Hstatus). cbv zeta.
    rewrite Htype. change (default "" (Some ?x)) with x.
    rewrite contains_app. reflexivity.
  - intros Htype.
    rewrite (download_image_dispatch _ _ _ _ _ _ Hget Hstatus). cbv zeta.
    rewrite Htype. reflexivity.
Qed.

Lemma routing_ignores_parameters_witness :
  download_image Scenario.libs "https://example.com/broken.svg" "out" 50000 Scenario.start =
  handle_svg Scenario.libs "https://example.com/broken.svg" Scenario.not_xml "out" 50000
    Scenario.start.
Proof.
  exact (proj1 (routing_ignores_parameters Scenario.libs "https://example.com/broken.svg"
                  "out" 50000
                  (Response 200 {[ "Content-Type" := "image/svg+xml; charset=utf-8" ]}
                     Scenario.not_xml)
                  Scenario.start eq_refl eq_refl)
           "" "; charset=utf-8" eq_refl).
Defined.

(** ** Independence of the URLs *)

Lemma string_app_inj_length (a b x y : string) :
  String.length a = String.length b -> a ++ x = b ++ y -> a = b.
Proof.
  revert b. induction a as [| c a IH]; intros [| c' b] Hlen; try discriminate.
  - reflexivity.
  - change (String c a ++ x) with (String c (a ++ x)).
    change (String c' b ++ y) with (String c' (b ++ y)).
    intros [= -> H]. f_equal. apply IH; [| exact H].
    cbn in Hlen. congruence.
Qed.

(** In one folder, the fingerprint names of two URLs with different
    fingerprints are different paths. *)
Lemma url_paths_disjoint folder url other p :
  md5_hash other <> md5_hash url ->
  url_path folder other p -> ~ url_path folder url p.
Proof.
  intros Hne (e1 & ->) (e2 & Heq). apply Hne.
  pose proof (md5_hash_length other) as Hlen1.
  pose proof (md5_hash_length url) as Hlen2.
  destruct (md5_hash_first_char other) as (c1 & r1 & E1 & Hc1).
  destruct (md5_hash_first_char url) as (c2 & r2 & E2 & Hc2).
  assert (Hnames : forall prefix,
             prefix ++ md5_hash other ++ "." ++ e1 = prefix ++ md5_hash url ++ "." ++ e2 ->
             md5_hash other = md5_hash url).
  { intros prefix H. apply String.app_inj in H.
    eapply string_app_inj_length; [| exact H]. congruence. }
  revert Heq. unfold path_join. rewrite E1, E2 in *.
  change (String c1 r1 ++ "." ++ e1) with (String c1 (r1 ++ "." ++ e1)) in *.
  change (String c2 r2 ++ "." ++ e2) with (String c2 (r2 ++ "." ++ e2)) in *.
  cbn [PyStr.startswith]. rewrite Hc1, Hc2.
  destruct (String.eqb folder ""); [apply (Hnames "") |].
  destruct (PyStr.endswith_char folder "/"); [apply Hnames |].
  intros H. apply String.app_inj in H. apply (Hnames "/"). exact H.
Qed.

(** X19: handling a candidate never touches the files stored for a URL
    with a different fingerprint: every path named by the fingerprint of
    the other URL keeps the content it had, whatever the libraries
    return for the candidate. *)
Theorem other_urls_files_untouched L output_folder min_area img_url other p w :
  md5_hash other <> md5_hash img_url ->
  url_path output_folder other p ->
  files (snd (process_image L output_folder min_area img_url w)) !! p = files w !! p.
Proof.
  intros Hne Hother.
  destruct (keeps_process_image L output_folder min_area img_url w p)
    as [Heq | [_ Hmine]]; [exact Heq |].
  exfalso. exact (url_paths_disjoint _ _ _ _ Hne Hother Hmine).
Qed.

Lemma other_urls_files_untouched_witness :
  let stored := snd (process_image Scenario.libs "out" 50000
                       "https://example.com/logo.svg" Scenario.start) in
  files (snd (process_image Scenario.libs "out" 50000 "https://example.com/photo.png"
                stored))
    !! "out/cf6f50ae5983e01f7572fc4d6c795482.svg"
  = files stored !! "out/cf6f50ae5983e01f7572fc4d6c795482.svg".
Proof.
  cbv zeta.
  apply (other_urls_files_untouched Scenario.libs "out" 50000
           "https://example.com/photo.png" "https://example.com/logo.svg").
  - vm_compute. discriminate.
  - exists "svg". vm_compute. reflexivity.
Defined.
